(** * Terminal Shortcuts: configuration resolution, runner and id helper

    A shallow embedding of [src/extension.ts]: the shortcut records, the
    resolver ([readFileConfig], [loadShortcuts], [mergeShortcuts],
    [normalizeShortcuts]), the runner ([runShortcut] and the run-by-id
    command) over a model of the editor window, and [makeUniqueId].

    Conventions of the embedding:
    - an optional property [f?: T] of a TypeScript interface is a field of
      type [option T]; [None] is "the object has no such property";
    - records are taken at their declared type [TerminalShortcutConfig]
      (the source casts parsed JSON with [as FileConfig] and never
      inspects the elements any further); an array element that is not
      such a record, [null] for one, on which reading [.id] throws, is
      outside this embedding, so nothing below says what the code does
      with it;
    - a call that can throw returns a [Completion]; [try]/[catch] is
      [try_catch];
    - calls into the editor ([vscode.window.*], [Terminal.*]) are state
      transformers on [Window]. *)

From Equations Require Import Equations.
From stdpp Require Import gmap strings list pretty.

(** ** Data model *)

Definition EnvMap := gmap string string.

Record ShortcutIconConfig := {
  light : option string;
  dark : option string;
}.

Inductive Location := editor | panel.

#[global] Instance Location_eq_dec : EqDecision Location.
Proof. solve_decision. Defined.

(** [interface TerminalShortcutConfig].  [viewColumn] is a JavaScript
    number; the only thing the code does with it is compare it with [2]
    and [3], so an integer loses nothing. *)
Record TerminalShortcutConfig := {
  id : string;
  label : string;
  command : string;
  terminalName : option string;
  cwd : option string;
  env : option EnvMap;
  reuse : option bool;
  focus : option bool;
  statusBar : option bool;
  codicon : option string;
  statusBarText : option string;
  icon : option ShortcutIconConfig;
  location : option Location;
  viewColumn : option Z;
}.

(** What [fromFile.commands] can be at run time, as far as
    [loadShortcuts] looks at it: a falsy value or no property at all, a
    truthy value that is not an array, or an array (possibly empty). *)
Inductive CommandsValue :=
| CommandsMissing
| CommandsNotArray
| CommandsArray (arr : list TerminalShortcutConfig).

Record FileConfig := { commands : CommandsValue }.

(** A parsed JSON document, as far as [readFileConfig] looks at it:
    [config && typeof config === 'object'] holds for objects and arrays
    (an array has no [commands] property) and fails for [null] and for
    primitives. *)
Inductive JsonDocument :=
| JsonPrimitive
| JsonObject (config : FileConfig).

(** ** Completions: values and exceptions *)

Inductive Exception := FileNotFound | SyntaxError.

Inductive Completion (A : Type) :=
| Returned (a : A)
| Thrown (e : Exception).
Arguments Returned {A} a.
Arguments Thrown {A} e.

#[global] Instance completion_ret : MRet Completion := λ A a, Returned a.
#[global] Instance completion_bind : MBind Completion := λ A B k c,
  match c with
  | Returned a => k a
  | Thrown e => Thrown e
  end.

Definition try_catch {A} (body : Completion A) (handler : Exception → Completion A) : Completion A :=
  match body with
  | Returned a => Returned a
  | Thrown e => handler e
  end.

(** ** The workspace: folders, files and settings *)

Record Workspace := {
  workspaceFolders : option (list string);
  files : gmap string string;
  settings_commands : option (list TerminalShortcutConfig);
  settings_mergeUserAndWorkspace : option bool;
}.

Definition joinPath (root p : string) : string := root +:+ "/" +:+ p.

(** [vscode.workspace.fs.readFile(uri)] followed by the UTF-8 decoding,
    which does not throw. *)
Definition readFile (ws : Workspace) (uri : string) : Completion string :=
  match files ws !! uri with
  | Some text => Returned text
  | None => Thrown FileNotFound
  end.

Section Resolver.
(** [JSON.parse], restricted to what the resolver observes of its
    result; [None] is a thrown [SyntaxError]. *)
Variable JSON_parse : string → option JsonDocument.

Definition parse (text : string) : Completion JsonDocument :=
  match JSON_parse text with
  | Some doc => Returned doc
  | None => Thrown SyntaxError
  end.

(** The body of the [for (const uri of [primary, fallback])] loop:
    [Some config] is the [return config] inside the [try], [None] is
    falling out of the [try]/[catch] to the next candidate. *)
Definition readCandidate (ws : Workspace) (uri : string) : Completion (option FileConfig) :=
  try_catch
    (text ← readFile ws uri;
     config ← parse text;
     match config with
     | JsonObject config => Returned (Some config)
     | JsonPrimitive => Returned None
     end)
    (λ _, Returned None).

Fixpoint readCandidates (ws : Workspace) (uris : list string) : Completion (option FileConfig) :=
  match uris with
  | [] => Returned None
  | uri :: rest =>
      found ← readCandidate ws uri;
      match found with
      | Some config => Returned (Some config)
      | None => readCandidates ws rest
      end
  end.

Definition readFileConfig (ws : Workspace) : Completion (option FileConfig) :=
  match workspaceFolders ws with
  | None | Some [] => Returned None
  | Some (root :: _) =>
      let primary := joinPath root ".vscode/terminal-shortcuts.json" in
      let fallback := joinPath root "terminal-shortcuts.json" in
      readCandidates ws [primary; fallback]
  end.

(** [{ reuse: true, ..., ...s }]: an own property of [s] overrides the
    default written before the spread. *)
Definition spread_over {A} (dflt : A) (own : option A) : option A :=
  match own with
  | Some v => Some v
  | None => Some dflt
  end.

Definition withDefaults (s : TerminalShortcutConfig) : TerminalShortcutConfig :=
  {| id := id s;
     label := label s;
     command := command s;
     terminalName := terminalName s;
     cwd := cwd s;
     env := env s;
     reuse := spread_over true (reuse s);
     focus := spread_over true (focus s);
     statusBar := statusBar s;
     codicon := spread_over "terminal" (codicon s);
     statusBarText := statusBarText s;
     icon := icon s;
     location := spread_over editor (location s);
     viewColumn := viewColumn s |}.

(** The [context] argument of the source is unused. *)
Definition normalizeShortcuts (arr : list TerminalShortcutConfig) : list TerminalShortcutConfig :=
  withDefaults <$> arr.

Definition mergeShortcuts (primary secondary : list TerminalShortcutConfig)
  : list TerminalShortcutConfig :=
  let ids : gset string := list_to_set (id <$> primary) in
  let extras := filter (λ s, id s ∉ ids) secondary in
  primary ++ extras.

Definition loadShortcuts (ws : Workspace) : Completion (list TerminalShortcutConfig) :=
  fromFile ← readFileConfig ws;
  let fromSettings := default [] (settings_commands ws) in
  let mergeWithSettings := default true (settings_mergeUserAndWorkspace ws) in
  match fromFile with
  | Some {| commands := CommandsArray fileCommands |} =>
      if mergeWithSettings then
        let merged := mergeShortcuts fileCommands fromSettings in
        Returned (normalizeShortcuts merged)
      else Returned (normalizeShortcuts fileCommands)
  | _ => Returned (normalizeShortcuts fromSettings)
  end.
End Resolver.

(** ** The editor window

    The part of the host the runner talks to.  A terminal handle is the
    position of the terminal in [vscode.window.terminals].  The host's
    contract, from the editor's API description:
    - [createTerminal(options)] adds a terminal; one placed in the editor
      area takes keyboard focus unless its location options say
      [preserveFocus: true];
    - [Terminal.show(preserveFocus)] reveals the terminal, and "when
      [true] the terminal will not take focus";
    - [Terminal.sendText(text, addNewLine)] writes to the terminal's
      input;
    - [showErrorMessage] shows an error notice.
    Terminal creation is taken to succeed. *)

Inductive ViewColumn := Active | Two | Three.

Inductive TerminalLocation :=
| Panel
| EditorLocationOptions (column : ViewColumn) (preserveFocus : bool).

Record TerminalOptions := {
  options_name : string;
  options_cwd : option string;
  options_env : option EnvMap;
  options_location : TerminalLocation;
}.

Record Terminal := {
  name : string;
  creationOptions : option TerminalOptions;
  sent : list (string * bool);
}.

Record Window := {
  terminals : list Terminal;
  focused : option nat;
  errorMessages : list string;
}.

Definition Host (A : Type) : Type := Window → A * Window.

#[global] Instance host_ret : MRet Host := λ A a w, (a, w).
#[global] Instance host_bind : MBind Host := λ A B k c w,
  let '(a, w') := c w in k a w'.

(** [vscode.window.terminals.find(t => t.name === name)] *)
Definition findTerminal (n : string) : Host (option nat) := λ w,
  (fst <$> list_find (λ t, name t = n) (terminals w), w).

Definition createTerminal (options : TerminalOptions) : Host nat := λ w,
  let handle := length (terminals w) in
  let terminal :=
    {| name := options_name options;
       creationOptions := Some options;
       sent := [] |} in
  (handle,
   {| terminals := terminals w ++ [terminal];
      focused :=
        match options_location options with
        | EditorLocationOptions _ false => Some handle
        | _ => focused w
        end;
      errorMessages := errorMessages w |}).

Definition show (handle : nat) (preserveFocus : bool) : Host unit := λ w,
  (tt,
   {| terminals := terminals w;
      focused := if preserveFocus then focused w else Some handle;
      errorMessages := errorMessages w |}).

Definition typed (text : string) (addNewLine : bool) (t : Terminal) : Terminal :=
  {| name := name t;
     creationOptions := creationOptions t;
     sent := sent t ++ [(text, addNewLine)] |}.

Definition sendText (handle : nat) (text : string) (addNewLine : bool) : Host unit := λ w,
  (tt,
   {| terminals := alter (typed text addNewLine) handle (terminals w);
      focused := focused w;
      errorMessages := errorMessages w |}).

Definition showErrorMessage (message : string) : Host unit := λ w,
  (tt,
   {| terminals := terminals w;
      focused := focused w;
      errorMessages := errorMessages w ++ [message] |}).

(** ** The runner *)

(** [a || b] on strings: the empty string is falsy, and so is a missing
    property. *)
Definition or_else (a : option string) (b : string) : string :=
  match a with
  | Some (String _ _ as a) => a
  | _ => b
  end.

Definition toViewColumn (n : option Z) : ViewColumn :=
  match n with
  | Some 2%Z => Two
  | Some 3%Z => Three
  | _ => Active
  end.

Definition resolveTerminalLocation (s : TerminalShortcutConfig) : TerminalLocation :=
  if decide (location s = Some panel) then Panel
  else
    let col := toViewColumn (viewColumn s) in
    EditorLocationOptions col (bool_decide (focus s = Some false)).

(** [const name = s.terminalName || s.label || s.id] *)
Definition terminalNameOf (s : TerminalShortcutConfig) : string :=
  or_else (terminalName s) (or_else (Some (label s)) (id s)).

Definition runShortcut (s : TerminalShortcutConfig) : Host unit :=
  let name := terminalNameOf s in
  terminal ← (if decide (reuse s ≠ Some false) then findTerminal name else mret None);
  terminal ←
    match terminal with
    | Some terminal => mret terminal
    | None =>
        let options :=
          {| options_name := name;
             options_cwd := cwd s;
             options_env := env s;
             options_location := resolveTerminalLocation s |} in
        createTerminal options
    end;
  let focus := bool_decide (focus s ≠ Some false) in
  show terminal focus;;
  sendText terminal (command s) true.

(** ** The extension and its run-by-id command *)

Record Extension := {
  window : Window;
  shortcuts : list TerminalShortcutConfig;
  workspace : Workspace;
}.

Section Commands.
Variable JSON_parse : string → option JsonDocument.

(** [shortcuts = await loadShortcuts(context)]; the status bar and the
    tree view, which only read [shortcuts], are left out.  A rejected
    promise leaves [shortcuts] as it was. *)
Definition load (st : Extension) : Extension :=
  match loadShortcuts JSON_parse (workspace st) with
  | Returned loaded =>
      {| window := window st; shortcuts := loaded; workspace := workspace st |}
  | Thrown _ => st
  end.

(** [!shortcuts || !Array.isArray(shortcuts)]: the module variable
    [shortcuts] only ever holds an array, which is truthy. *)
Definition notAnArray (l : list TerminalShortcutConfig) : bool := false.

Definition ensureLoaded (load : Extension → Extension) (st : Extension) : Extension :=
  if notAnArray (shortcuts st) then load st else st.

Definition inWindow (action : Host unit) (st : Extension) : Extension :=
  {| window := (action (window st)).2;
     shortcuts := shortcuts st;
     workspace := workspace st |}.

(** The handler registered as ['terminalShortcuts.runShortcut']. *)
Definition terminalShortcuts_runShortcut (i : option string) (st : Extension) : Extension :=
  let st := ensureLoaded load st in
  match i with
  | None | Some EmptyString => st
  | Some i =>
      match snd <$> list_find (λ x, id x = i) (shortcuts st) with
      | Some s => inWindow (runShortcut s) st
      | None => inWindow (showErrorMessage ("Raccourci introuvable: " +:+ i)) st
      end
  end.
End Commands.

(** ** The identifier helper

    [i] counts up from [1] in steps of one; the template literal
    [`${base}-${i}`] prints it in decimal.  (A JavaScript number counts
    exactly up to [2^53]; the loop leaves by [size existing + 1].)  The
    loop goes from [i] to [i + 1] exactly when the candidate for [i] is
    taken, and that relation, read backwards, is well-founded because
    [existing] is finite and distinct counters give distinct
    candidates. *)

Section MakeUniqueId.
Context (base : string) (existing : gset string).

Definition candidate (i : nat) : string := base +:+ "-" +:+ pretty i.

Definition loop_next (j i : nat) : Prop := j = S i ∧ candidate i ∈ existing.

Lemma candidate_inj : Inj (=) (=) candidate.
Proof.
  intros i j Hij. unfold candidate in Hij.
  apply (inj (String.append base)) in Hij.
  apply (inj (String.append "-")) in Hij.
  by apply (inj pretty) in Hij.
Qed.

Lemma candidates_taken_size (i n : nat) :
  (∀ k, i ≤ k < i + n → candidate k ∈ existing) → n ≤ size existing.
Proof.
  intros Htaken.
  assert (Hsub : list_to_set (candidate <$> seq i n) ⊆ existing).
  { intros x Hx. apply elem_of_list_to_set, list_elem_of_fmap in Hx.
    destruct Hx as (k & -> & Hk). apply elem_of_seq in Hk. apply Htaken. lia. }
  apply subseteq_size in Hsub.
  rewrite size_list_to_set in Hsub.
  - by rewrite length_fmap, length_seq in Hsub.
  - apply NoDup_fmap_2; [apply candidate_inj | apply NoDup_seq].
Qed.

Lemma candidate_free_from (i : nat) :
  ∃ k, (i ≤ k ≤ i + size existing) ∧ candidate k ∉ existing.
Proof.
  destruct (decide (Forall (λ k, candidate k ∈ existing) (seq i (S (size existing)))))
    as [Htaken | Hfree].
  - rewrite Forall_forall in Htaken.
    assert (S (size existing) ≤ size existing); [|lia].
    apply (candidates_taken_size i). intros k Hk. apply Htaken, elem_of_seq. lia.
  - apply not_Forall_Exists in Hfree; [|apply _].
    apply Exists_exists in Hfree. destruct Hfree as (k & Hk & Hfree).
    apply elem_of_seq in Hk. exists k. split; [lia | done].
Qed.

Lemma loop_next_wf : well_founded loop_next.
Proof.
  assert (Hdown : ∀ k, candidate k ∉ existing → ∀ d i, i + d = k → Acc loop_next i).
  { intros k Hfree d. induction d as [|d IH]; intros i Hi; constructor; intros j [-> Hin].
    - replace i with k in Hin by lia. done.
    - apply IH. lia. }
  intros i. destruct (candidate_free_from i) as (k & Hk & Hfree).
  apply (Hdown k Hfree (k - i)). lia.
Qed.

#[local] Instance loop_next_WellFounded : WellFounded loop_next := loop_next_wf.

(** [while (existing.has(`${base}-${i}`)) i++; return `${base}-${i}`] *)
Equations? loop (i : nat) : string by wf i loop_next :=
  loop i with decide (candidate i ∈ existing) => {
    | left _ := loop (S i);
    | right _ := candidate i }.
Proof. by split. Qed.

Definition makeUniqueId : string :=
  if decide (base ∈ existing) then loop 1 else base.

(** The same loop cut off after [fuel] tests of its condition. *)
Fixpoint loop_within (fuel i : nat) : option string :=
  match fuel with
  | 0 => None
  | S fuel =>
      if decide (candidate i ∈ existing) then loop_within fuel (S i)
      else Some (candidate i)
  end.
End MakeUniqueId.

(** ** Saving a shortcut

    [upsertGlobalShortcut] and [upsertWorkspaceShortcut] change the list
    they read with the same two lines:
    [const idx = current.findIndex(x => x.id === s.id);
     if (idx >= 0) current[idx] = s; else current.push(s);] *)

Definition upsert (s : TerminalShortcutConfig) (current : list TerminalShortcutConfig)
    : list TerminalShortcutConfig :=
  match list_find (λ x, id x = id s) current with
  | Some (idx, _) => <[idx := s]> current
  | None => current ++ [s]
  end.

(** The user-level settings, the target of
    [cfg.update('commands', value, vscode.ConfigurationTarget.Global)];
    [None] is a rejected promise. *)
Record UserSettings := {
  user_commands : option (list TerminalShortcutConfig);
  user_rejects : bool;
}.

Definition updateGlobal (value : list TerminalShortcutConfig) (u : UserSettings)
    : option UserSettings :=
  if user_rejects u then None
  else Some {| user_commands := Some value; user_rejects := user_rejects u |}.

(** [cfg.get('commands')] is the value in effect, the one [loadShortcuts]
    reads; the write goes to the user level. *)
Definition upsertGlobalShortcut (s : TerminalShortcutConfig) (ws : Workspace)
    (u : UserSettings) (w : Window) : bool * UserSettings * Window :=
  let current := default [] (settings_commands ws) in
  let current := upsert s current in
  match updateGlobal current u with
  | Some u' => (true, u', w)
  | None =>
      (false, u,
       (showErrorMessage
          "Impossible de mettre à jour les paramètres utilisateur pour enregistrer le raccourci."
          w).2)
  end.

(** The same record with another [id] ([toSave.id = ...] on the copy
    [{ ...s }]). *)
Definition with_id (i : string) (s : TerminalShortcutConfig) : TerminalShortcutConfig :=
  {| id := i; label := label s; command := command s;
     terminalName := terminalName s; cwd := cwd s; env := env s;
     reuse := reuse s; focus := focus s; statusBar := statusBar s;
     codicon := codicon s; statusBarText := statusBarText s; icon := icon s;
     location := location s; viewColumn := viewColumn s |}.

(** The answer to the quick pick of the ['duplicateGlobal'] message. *)
Inductive DuplicateChoice := overwrite | copy.

(** The record the ['duplicateGlobal'] message saves, if any: the quick
    pick is shown only when the id is taken, and dismissing it ([None])
    ends the handler. *)
Definition duplicateTarget (s : TerminalShortcutConfig) (ws : Workspace)
    (choice : option DuplicateChoice) : option TerminalShortcutConfig :=
  let current := default [] (settings_commands ws) in
  let exists_ := bool_decide (Exists (λ x, id x = id s) current) in
  if exists_ then
    match choice with
    | None => None
    | Some copy =>
        let ids : gset string := list_to_set (id <$> current) in
        Some (with_id (makeUniqueId (id s +:+ "-global") ids) s)
    | Some overwrite => Some s
    end
  else Some s.

(** The ['duplicateGlobal'] branch of the panel's message handler: the
    result of [upsertGlobalShortcut] is not looked at, and the
    information notice is shown after it in either case. *)
Definition duplicateGlobal (s : TerminalShortcutConfig) (ws : Workspace)
    (choice : option DuplicateChoice) (u : UserSettings) (w : Window)
    : UserSettings * Window * list string :=
  match duplicateTarget s ws choice with
  | None => (u, w, [])
  | Some toSave =>
      let '(_, u', w') := upsertGlobalShortcut toSave ws u w in
      (u', w',
       ["Raccourci dupliqué en global: " +:+ label toSave +:+ " (" +:+ id toSave +:+ ")"])
  end.

(** ** The prompt sequence of [promptAndCreateGlobalShortcut]

    What the user answers to the seven prompts, in order; [None] is a
    dismissed prompt.  The value a prompt is pre-filled with (the default
    id derived from the label, for one) is the user's to keep or change
    and does not reach the record unless it is the answer. *)

Record PromptAnswers := {
  answer_label : option string;
  answer_command : option string;
  answer_id : option string;
  answer_terminalName : option string;
  answer_showInStatus : option string;
  answer_where : option string;
  answer_codicon : option string;
}.

(** A string value that is not falsy: present and not empty. *)
Definition truthy (a : option string) : option string :=
  match a with
  | Some (String _ _ as a) => Some a
  | _ => None
  end.

Section Prompts.
(** [String.prototype.trim] *)
Variable trim : string → string.

Definition promptedShortcut (a : PromptAnswers) : option TerminalShortcutConfig :=
  label ← truthy (answer_label a);
  command ← truthy (answer_command a);
  id ← truthy (answer_id a);
  Some
    {| id := id;
       label := label;
       command := command;
       terminalName := truthy (answer_terminalName a);
       cwd := None;
       env := None;
       reuse := Some true;
       focus := Some true;
       statusBar := Some (bool_decide (answer_showInStatus a = Some "Oui"));
       codicon :=
         Some (match truthy (answer_codicon a) with
               | Some codicon =>
                   match truthy (Some (trim codicon)) with
                   | Some trimmed => trimmed
                   | None => "terminal"
                   end
               | None => "terminal"
               end);
       statusBarText := None;
       icon := None;
       location :=
         Some (match answer_where a with
               | Some where_ => if String.prefix "Panneau" where_ then panel else editor
               | None => editor
               end);
       viewColumn := None |}.

Definition promptAndCreateGlobalShortcut (a : PromptAnswers) (ws : Workspace)
    (u : UserSettings) (w : Window)
    : option TerminalShortcutConfig * UserSettings * Window :=
  match promptedShortcut a with
  | None => (None, u, w)
  | Some newShortcut =>
      let '(ok, u', w') := upsertGlobalShortcut newShortcut ws u w in
      (if ok then Some newShortcut else None, u', w')
  end.
End Prompts.

(** ** Icons of the tree view *)

(** Where an icon path is resolved: against the extension
    ([joinPath(context.extensionUri, p)]), against the first workspace
    folder ([joinPath(ws, p)]), or as a file path ([Uri.file(p)]). *)
Inductive IconUri :=
| ExtensionAsset (p : string)
| WorkspaceRelative (root p : string)
| AbsoluteFile (p : string).

Definition isLetter (c : Ascii.ascii) : bool :=
  let n := Ascii.nat_of_ascii c in
  (65 <=? n) && (n <=? 90) || (97 <=? n) && (n <=? 122).

Definition backslash : Ascii.ascii := Ascii.ascii_of_nat 92.

(** A match of [[A-Za-z]:\\[\s\S]*] somewhere in [p]: the second
    alternative of the regular expression, which the [^] of the first
    does not anchor. *)
Fixpoint hasDrive (p : string) : bool :=
  match p with
  | EmptyString => false
  | String c rest =>
      isLetter c && String.prefix (":" +:+ String backslash EmptyString) rest
      || hasDrive rest
  end.

(** The test of [p] against the regular expression whose two
    alternatives are: at the start, a slash and then anything; or,
    anywhere, a letter, a colon, a backslash and then anything. *)
Definition looksAbsolute (p : string) : bool :=
  String.prefix "/" p || hasDrive p.

Definition resolveIconUri (ws : Workspace) (p : string) : IconUri :=
  if String.prefix "images/" p then ExtensionAsset p
  else
    let folder :=
      match workspaceFolders ws with
      | Some (root :: _) => Some root
      | _ => None
      end in
    match folder with
    | Some root =>
        if String.prefix "./" p || String.prefix "../" p then WorkspaceRelative root p
        else if looksAbsolute p then AbsoluteFile p
        else ExtensionAsset p
    | None =>
        if looksAbsolute p then AbsoluteFile p else ExtensionAsset p
    end.

Inductive TreeIcon :=
| ThemeIcon (codicon : string)
| IconPaths (lightUri darkUri : option IconUri).

Definition resolveTreeItemIcon (ws : Workspace) (s : TerminalShortcutConfig) : TreeIcon :=
  match icon s with
  | Some paths =>
      match truthy (light paths), truthy (dark paths) with
      | None, None => ThemeIcon (or_else (codicon s) "terminal")
      | l, d => IconPaths (resolveIconUri ws <$> l) (resolveIconUri ws <$> d)
      end
  | None => ThemeIcon (or_else (codicon s) "terminal")
  end.

(** ** The tree view and the status bar *)

Record Command := {
  command_id : string;
  title : string;
  arguments : list string;
}.

(** [class ShortcutTreeItem]: the icon handed to the constructor is an
    object, so [iconPath] is always set. *)
Record ShortcutTreeItem := {
  item_shortcut : TerminalShortcutConfig;
  item_label : string;
  item_tooltip : string;
  item_description : string;
  item_iconPath : TreeIcon;
  item_command : Command;
  item_contextValue : string;
}.

Definition newShortcutTreeItem (s : TerminalShortcutConfig) (i : TreeIcon) : ShortcutTreeItem :=
  {| item_shortcut := s;
     item_label := label s;
     item_tooltip := label s +:+ " — " +:+ command s;
     item_description := default "" (terminalName s);
     item_iconPath := i;
     item_command :=
       {| command_id := "terminalShortcuts.runShortcut";
          title := "Run Terminal Shortcut";
          arguments := [id s] |};
     item_contextValue := "terminalShortcutItem" |}.

(** [ShortcutTreeProvider.getChildren], with [getShortcuts] and [toIcon]
    as [activate] sets them. *)
Definition getChildren (st : Extension) : list ShortcutTreeItem :=
  (λ s, newShortcutTreeItem s (resolveTreeItemIcon (workspace st) s)) <$> shortcuts st.

Inductive StatusBarAlignment := Left | Right.

(** [priority] is a JavaScript number. *)
Record StatusBarItem := {
  alignment : StatusBarAlignment;
  priority : Z;
  text : string;
  tooltip : string;
  bar_command : Command;
  visible : bool;
}.

(** Every status bar item created so far, by handle, and the module
    variable [statusBarItems]. *)
Record StatusBar := {
  items : list StatusBarItem;
  statusBarItems : gmap string nat;
}.

Record StatusBarSettings := {
  showInStatusBar : option bool;
  statusBar_alignment : option string;
  statusBar_priority : option Z;
}.

Definition dispose (item : StatusBarItem) : StatusBarItem :=
  {| alignment := alignment item; priority := priority item; text := text item;
     tooltip := tooltip item; bar_command := bar_command item; visible := false |}.

(** [for (const item of statusBarItems.values()) item.dispose();
    statusBarItems.clear();] *)
Definition disposeStatusBar (bar : StatusBar) : StatusBar :=
  let tracked : gset nat := map_img (statusBarItems bar) in
  {| items := imap (λ handle item, if decide (handle ∈ tracked) then dispose item else item)
                   (items bar);
     statusBarItems := ∅ |}.

Section StatusBarItems.
(** [String.prototype.trim] *)
Variable trim : string → string.

Definition statusBarItemFor (cfg : StatusBarSettings) (s : TerminalShortcutConfig)
    : StatusBarItem :=
  let alignStr := default "left" (statusBar_alignment cfg) in
  let iconId := or_else (codicon s) "terminal" in
  let shown :=
    match truthy (statusBarText s) with
    | Some statusBarText =>
        if bool_decide (0 < String.length (trim statusBarText)) then statusBarText
        else label s
    | None => label s
    end in
  {| alignment := if decide (alignStr = "right") then Right else Left;
     priority := default 100%Z (statusBar_priority cfg);
     text := trim ("$(" +:+ iconId +:+ ") " +:+ shown);
     tooltip := label s +:+ " — " +:+ command s;
     bar_command :=
       {| command_id := "terminalShortcuts.runShortcut";
          title := label s;
          arguments := [id s] |};
     visible := true |}.

(** One turn of the loop of [rebuildStatusBar]. *)
Definition addStatusBarItem (cfg : StatusBarSettings) (bar : StatusBar)
    (s : TerminalShortcutConfig) : StatusBar :=
  let showAll := default false (showInStatusBar cfg) in
  if showAll || bool_decide (statusBar s = Some true) then
    let handle := length (items bar) in
    {| items := items bar ++ [statusBarItemFor cfg s];
       statusBarItems := <[id s := handle]> (statusBarItems bar) |}
  else bar.

Definition rebuildStatusBar (cfg : StatusBarSettings) (shortcuts : list TerminalShortcutConfig)
    (bar : StatusBar) : StatusBar :=
  foldl (addStatusBarItem cfg) (disposeStatusBar bar) shortcuts.
End StatusBarItems.

(** Running the command of a tree item or of a status bar item, as the
    host does when the item is clicked:
    [executeCommand(command, ...arguments)].  Only
    ['terminalShortcuts.runShortcut'] is given a meaning here; [None] is
    any other command. *)
Definition executeCommand (JSON_parse : string → option JsonDocument) (c : Command)
    (st : Extension) : option Extension :=
  if decide (command_id c = "terminalShortcuts.runShortcut") then
    Some (terminalShortcuts_runShortcut JSON_parse (head (arguments c)) st)
  else None.

(** ** The form's list of existing shortcuts *)

(** [s.replace(/[&<>]/g, c => ({'&':'&amp;','<':'&lt;','>':'&gt;'}[c]!))] *)
Definition escapedChar (c : Ascii.ascii) : string :=
  let c := String c EmptyString in
  if decide (c = "&") then "&amp;"
  else if decide (c = "<") then "&lt;"
  else if decide (c = ">") then "&gt;"
  else c.

Fixpoint escaped (s : string) : string :=
  match s with
  | EmptyString => EmptyString
  | String c rest => escapedChar c +:+ escaped rest
  end.

(** ** Writing the configuration file

    For the two functions that write
    [.vscode/terminal-shortcuts.json] a parsed document is looked at
    more closely than by the resolver: [null], another primitive, an
    array, or a plain object, of which only [commands] is followed here
    (its other properties are written back as they were read). *)

Inductive JsonValue :=
| JsonNull
| JsonScalar
| JsonArray
| JsonRecord (config : FileConfig).

(** What the resolver sees of a parsed value. *)
Definition observed (v : JsonValue) : JsonDocument :=
  match v with
  | JsonNull | JsonScalar => JsonPrimitive
  | JsonArray => JsonObject {| commands := CommandsMissing |}
  | JsonRecord config => JsonObject config
  end.

(** What a save leaves behind: its answer ([None] when a [TypeError]
    escapes it), the files, and the notices it showed. *)
Record SaveOutcome := {
  answer : option bool;
  filesAfter : gmap string string;
  warningsShown : list string;
  errorsShown : list string;
}.

Section ConfigurationFile.
(** [JSON.parse] and [JSON.stringify(json, null, 2)] *)
Variable JSON_parse_value : string → option JsonValue.
Variable JSON_stringify : JsonValue → string.

(** The first [try]/[catch] of [upsertWorkspaceShortcut]: [json] starts
    as [{ commands: [] }]; a failed read or parse leaves it so; a parsed
    value replaces it, and [if (!json.commands) json.commands = []] then
    throws on [null] (caught, [json] stays [null]), does nothing that
    lasts on a primitive, and sets the property on an object or an
    array.  For an array the new property is not among what
    [JSON.stringify] writes, so the array stays what is written. *)
Definition readExisting (ws : Workspace) (file : string) : JsonValue :=
  match files ws !! file with
  | None => JsonRecord {| commands := CommandsArray [] |}
  | Some text =>
      match JSON_parse_value text with
      | None => JsonRecord {| commands := CommandsArray [] |}
      | Some (JsonRecord {| commands := CommandsMissing |}) =>
          JsonRecord {| commands := CommandsArray [] |}
      | Some json => json
      end
  end.

(** [json.commands!.findIndex(...)] and the update after it: [None] is
    the [TypeError] of reading a property of [null], or of calling
    [findIndex] on [undefined] or on a value that is not an array.  The
    elements of an array are shortcut records, as everywhere here: what
    [x.id] does on an element that is [null] is not described. *)
Definition upsertInto (s : TerminalShortcutConfig) (json : JsonValue) : option JsonValue :=
  match json with
  | JsonNull | JsonScalar => None
  | JsonArray => Some JsonArray
  | JsonRecord {| commands := CommandsArray current |} =>
      Some (JsonRecord {| commands := CommandsArray (upsert s current) |})
  | JsonRecord _ => None
  end.

(** [rejects] tells whether the host refuses the write. *)
Definition upsertWorkspaceShortcut (s : TerminalShortcutConfig) (rejects : bool)
    (ws : Workspace) : SaveOutcome :=
  match workspaceFolders ws with
  | None | Some [] =>
      {| answer := Some false;
         filesAfter := files ws;
         warningsShown := ["Aucun dossier ouvert pour enregistrer dans le workspace."];
         errorsShown := [] |}
  | Some (root :: _) =>
      let dir := joinPath root ".vscode" in
      let file := joinPath dir "terminal-shortcuts.json" in
      match upsertInto s (readExisting ws file) with
      | None =>
          {| answer := None; filesAfter := files ws;
             warningsShown := []; errorsShown := [] |}
      | Some json =>
          if rejects then
            {| answer := Some false;
               filesAfter := files ws;
               warningsShown := [];
               errorsShown :=
                 ["Impossible d’écrire le fichier de configuration du workspace."] |}
          else
            {| answer := Some true;
               filesAfter := <[file := JSON_stringify json]> (files ws);
               warningsShown := [];
               errorsShown := [] |}
      end
  end.

(** The two records [openOrCreateConfig] seeds a new file with. *)
Definition sampleShortcut (i l cmd cod : string) : TerminalShortcutConfig :=
  {| id := i; label := l; command := cmd;
     terminalName := Some l; cwd := None; env := None;
     reuse := Some true; focus := Some true; statusBar := Some true;
     codicon := Some cod; statusBarText := None;
     icon := Some {| light := Some ("images/light/" +:+ i +:+ ".svg");
                     dark := Some ("images/dark/" +:+ i +:+ ".svg") |};
     location := Some editor; viewColumn := None |}.

Definition sample : FileConfig :=
  {| commands :=
       CommandsArray [sampleShortcut "build" "Build" "npm run build" "tools";
                      sampleShortcut "test" "Test" "npm test" "beaker"] |}.

(** What [openOrCreateConfig] leaves behind: the files, the document it
    shows, and the warning it shows when no folder is open (it then
    opens the settings instead).  [None] is the rejected write of the
    seed, which nothing catches. *)
Record OpenOutcome := {
  filesThen : gmap string string;
  documentShown : option string;
  warned : list string;
}.

Definition openOrCreateConfig (rejects : bool) (ws : Workspace) : option OpenOutcome :=
  match workspaceFolders ws with
  | None | Some [] =>
      Some {| filesThen := files ws;
              documentShown := None;
              warned := ["Pas de dossier ouvert. Utilisez les paramètres utilisateur 'terminalShortcuts.commands'."] |}
  | Some (root :: _) =>
      let dir := joinPath root ".vscode" in
      let file := joinPath dir "terminal-shortcuts.json" in
      match files ws !! file with
      | Some _ =>
          Some {| filesThen := files ws; documentShown := Some file; warned := [] |}
      | None =>
          if rejects then None
          else
            let text := JSON_stringify (JsonRecord sample) in
            Some {| filesThen := <[file := text]> (files ws);
                    documentShown := Some file;
                    warned := [] |}
      end
  end.
End ConfigurationFile.

(** The same workspace with other files. *)
Definition with_files (fs : gmap string string) (ws : Workspace) : Workspace :=
  {| workspaceFolders := workspaceFolders ws;
     files := fs;
     settings_commands := settings_commands ws;
     settings_mergeUserAndWorkspace := settings_mergeUserAndWorkspace ws |}.

(** ** Vocabulary of the statements *)

(** A candidate path that gives the resolver nothing: no file there, or
    a file that [JSON.parse] rejects. *)
Definition unusable (JSON_parse : string → option JsonDocument) (ws : Workspace)
    (uri : string) : Prop :=
  files ws !! uri = None ∨
  ∃ text, files ws !! uri = Some text ∧ JSON_parse text = None.

(** The options [runShortcut] creates a terminal with. *)
Definition optionsOf (s : TerminalShortcutConfig) : TerminalOptions :=
  {| options_name := terminalNameOf s;
     options_cwd := cwd s;
     options_env := env s;
     options_location := resolveTerminalLocation s |}.

(** The same workspace with another settings list. *)
Definition with_settings_commands (fromSettings : option (list TerminalShortcutConfig))
    (ws : Workspace) : Workspace :=
  {| workspaceFolders := workspaceFolders ws;
     files := files ws;
     settings_commands := fromSettings;
     settings_mergeUserAndWorkspace := settings_mergeUserAndWorkspace ws |}.

(** The same record with another [focus], or another [reuse]. *)
Definition with_focus (f : option bool) (s : TerminalShortcutConfig) : TerminalShortcutConfig :=
  {| id := id s; label := label s; command := command s;
     terminalName := terminalName s; cwd := cwd s; env := env s;
     reuse := reuse s; focus := f; statusBar := statusBar s;
     codicon := codicon s; statusBarText := statusBarText s; icon := icon s;
     location := location s; viewColumn := viewColumn s |}.

Definition with_reuse (r : option bool) (s : TerminalShortcutConfig) : TerminalShortcutConfig :=
  {| id := id s; label := label s; command := command s;
     terminalName := terminalName s; cwd := cwd s; env := env s;
     reuse := r; focus := focus s; statusBar := statusBar s;
     codicon := codicon s; statusBarText := statusBarText s; icon := icon s;
     location := location s; viewColumn := viewColumn s |}.

(** ** Sample data

    A record with only the three required properties, a parser that
    knows four documents, and a one-folder workspace whose primary
    configuration file holds the given text. *)

Definition shortcut (i cmd : string) : TerminalShortcutConfig :=
  {| id := i; label := i; command := cmd;
     terminalName := None; cwd := None; env := None;
     reuse := None; focus := None; statusBar := None;
     codicon := None; statusBarText := None; icon := None;
     location := None; viewColumn := None |}.

Definition sample_parse (text : string) : option JsonDocument :=
  if decide (text = "a b") then
    Some (JsonObject {| commands := CommandsArray [shortcut "a" "file"; shortcut "b" "file"] |})
  else if decide (text = "a a") then
    Some (JsonObject {| commands := CommandsArray [shortcut "a" "one"; shortcut "a" "two"] |})
  else if decide (text = "none") then
    Some (JsonObject {| commands := CommandsArray [] |})
  else if decide (text = "null") then Some JsonPrimitive
  else None.

Definition sample_workspace (text : string) (fromSettings : list TerminalShortcutConfig)
    (merge : option bool) : Workspace :=
  {| workspaceFolders := Some ["/project"];
     files := {[ "/project/.vscode/terminal-shortcuts.json" := text ]};
     settings_commands := Some fromSettings;
     settings_mergeUserAndWorkspace := merge |}.

Definition b_c : list TerminalShortcutConfig :=
  [shortcut "b" "settings"; shortcut "c" "settings"].

Definition a_b : list TerminalShortcutConfig :=
  [shortcut "a" "file"; shortcut "b" "file"].

(** A resolved record: id "build", label "Build", every default applied. *)
Definition build : TerminalShortcutConfig :=
  withDefaults
    {| id := "build"; label := "Build"; command := "npm run build";
       terminalName := Some "Build"; cwd := None; env := None;
       reuse := None; focus := None; statusBar := None;
       codicon := None; statusBarText := None; icon := None;
       location := None; viewColumn := None |}.

(** A window with one terminal, named "Build", opened by the user; the
    keyboard focus is outside the terminals. *)
Definition build_open : Window :=
  {| terminals := [{| name := "Build"; creationOptions := None; sent := [] |}];
     focused := None;
     errorMessages := [] |}.

Definition build_loaded : Extension :=
  {| window := build_open;
     shortcuts := [build];
     workspace := sample_workspace "a b" [] None |}.

(** A parser that knows an object without [commands], and a workspace
    file, parser and printer for one saved list. *)
Definition shape_parse (text : string) : option JsonDocument :=
  if decide (text = "object") then Some (JsonObject {| commands := CommandsMissing |})
  else None.

Definition accepting : UserSettings := {| user_commands := None; user_rejects := false |}.

Definition show_all : StatusBarSettings :=
  {| showInStatusBar := Some true; statusBar_alignment := None; statusBar_priority := None |}.

Definition empty_bar : StatusBar := {| items := []; statusBarItems := ∅ |}.

Definition saved_a : JsonValue :=
  JsonRecord {| commands := CommandsArray [shortcut "a" "saved"] |}.

Definition saved_parse (text : string) : option JsonValue :=
  if decide (text = "saved a") then Some saved_a else None.

Definition saved_stringify (v : JsonValue) : string := "saved a".

(** * Properties *)

(** ** makeUniqueId *)

Section MakeUniqueId_properties.
Context (base : string) (existing : gset string).

Lemma loop_step (i : nat) :
  loop base existing i =
    if decide (candidate base i ∈ existing) then loop base existing (S i)
    else candidate base i.
Proof.
  rewrite (loop_equation_1 base existing i).
  by destruct (decide (candidate base i ∈ existing)).
Qed.

Lemma loop_within_loop (fuel i : nat) (r : string) :
  loop_within base existing fuel i = Some r → loop base existing i = r.
Proof.
  revert i. induction fuel as [|fuel IH]; intros i; simpl; [done|].
  rewrite loop_step. destruct (decide _); [apply IH | congruence].
Qed.

Lemma loop_within_first_free (k i : nat) :
  i ≤ k →
  (∀ j, i ≤ j < k → candidate base j ∈ existing) →
  candidate base k ∉ existing →
  loop_within base existing (S (k - i)) i = Some (candidate base k).
Proof.
  intros Hik. remember (k - i) as d eqn:Hd. revert i Hik Hd.
  induction d as [|d IH]; intros i Hik Hd Htaken Hfree.
  - replace i with k by lia. simpl. by rewrite decide_False.
  - cbn [loop_within]. rewrite decide_True by (apply Htaken; lia).
    apply IH; [lia | lia | | done]. intros j Hj. apply Htaken. lia.
Qed.

Lemma first_free_from (i : nat) :
  ∃ k, (i ≤ k ≤ i + size existing) ∧ (candidate base k ∉ existing) ∧
       ∀ j, i ≤ j < k → candidate base j ∈ existing.
Proof.
  destruct (candidate_free_from base existing i) as (k & Hk & Hfree).
  assert (Hleast : ∀ d i, i + d = k →
    ∃ k', (i ≤ k' ≤ k) ∧ (candidate base k' ∉ existing) ∧
          ∀ j, i ≤ j < k' → candidate base j ∈ existing).
  { clear i Hk. induction d as [|d IH]; intros i Hi.
    - exists k. split; [lia|]. split; [done|]. intros j Hj. lia.
    - destruct (decide (candidate base i ∈ existing)) as [Hin | Hout].
      + destruct (IH (S i)) as (k' & Hk' & Hfree' & Hbelow); [lia|].
        exists k'. split; [lia|]. split; [done|].
        intros j Hj. destruct (decide (j = i)) as [-> | Hne]; [done|].
        apply Hbelow. lia.
      + exists i. split; [lia|]. split; [done|]. intros j Hj. lia. }
  destruct (Hleast (k - i) i) as (k' & Hk' & Hfree' & Hbelow); [lia|].
  exists k'. split; [lia | done].
Qed.

Lemma makeUniqueId_fresh : base ∉ existing → makeUniqueId base existing = base.
Proof. intros Hfree. unfold makeUniqueId. by rewrite decide_False. Qed.

Lemma makeUniqueId_taken :
  base ∈ existing →
  ∃ k, (1 ≤ k ≤ S (size existing)) ∧
       makeUniqueId base existing = candidate base k ∧
       loop_within base existing k 1 = Some (candidate base k) ∧
       (candidate base k ∉ existing) ∧
       ∀ j, 1 ≤ j < k → candidate base j ∈ existing.
Proof.
  intros Htaken. destruct (first_free_from 1) as (k & Hk & Hfree & Hbelow).
  pose proof (loop_within_first_free k 1 ltac:(lia) Hbelow Hfree) as Hrun.
  replace (S (k - 1)) with k in Hrun by lia.
  exists k. split; [lia|]. split; [|done].
  unfold makeUniqueId. rewrite decide_True by done.
  by apply (loop_within_loop k).
Qed.
End MakeUniqueId_properties.

Lemma makeUniqueId_by_running (base : string) (existing : gset string) (fuel : nat) (r : string) :
  (if decide (base ∈ existing) then loop_within base existing fuel 1 else Some base) = Some r →
  makeUniqueId base existing = r.
Proof.
  unfold makeUniqueId. destruct (decide _); [apply loop_within_loop | congruence].
Qed.

(** C6: [makeUniqueId base existing] is [base] when [base] is not in
    [existing]; otherwise it is [base-k] for the least [k >= 1] whose
    candidate [base-k] is not in [existing].  On "build" with the sets
    {}, {"build"} and {"build", "build-1"} it gives "build", "build-1"
    and "build-2". *)
Theorem makeUniqueId_first_free_suffix (base : string) (existing : gset string) :
  (base ∉ existing → makeUniqueId base existing = base) ∧
  (base ∈ existing →
     ∃ k, 1 ≤ k ∧
          makeUniqueId base existing = base +:+ "-" +:+ pretty k ∧
          (base +:+ "-" +:+ pretty k ∉ existing) ∧
          ∀ j, 1 ≤ j < k → base +:+ "-" +:+ pretty j ∈ existing) ∧
  makeUniqueId "build" ∅ = "build" ∧
  makeUniqueId "build" {["build"]} = "build-1" ∧
  makeUniqueId "build" {["build"; "build-1"]} = "build-2".
Proof.
  split; [apply makeUniqueId_fresh|]. split.
  - intros Htaken.
    destruct (makeUniqueId_taken base existing Htaken) as (k & Hk & Hid & _ & Hfree & Hbelow).
    exists k. split; [lia | done].
  - repeat split; by apply (makeUniqueId_by_running _ _ 3).
Qed.

(** C10: the suffix search of [makeUniqueId] terminates on every input:
    some [k >= 1], at most one more than the size of [existing], has its
    candidate [base-k] outside [existing]; the loop started at [1] leaves
    after testing its condition [k] times, and the result is what [loop],
    defined by well-founded recursion on [loop_next], returns. *)
Theorem makeUniqueId_terminates (base : string) (existing : gset string) :
  well_founded (loop_next base existing) ∧
  ∃ k, (1 ≤ k ≤ S (size existing)) ∧
       (candidate base k ∉ existing) ∧
       loop_within base existing k 1 = Some (candidate base k) ∧
       loop base existing 1 = candidate base k.
Proof.
  split; [apply loop_next_wf|].
  destruct (first_free_from base existing 1) as (k & Hk & Hfree & Hbelow).
  pose proof (loop_within_first_free base existing k 1 ltac:(lia) Hbelow Hfree) as Hrun.
  replace (S (k - 1)) with k in Hrun by lia.
  exists k. split; [lia|]. split; [done|]. split; [done|].
  by apply (loop_within_loop base existing k).
Qed.

(** ** The resolver *)

Section Resolver_properties.
Variable JSON_parse : string → option JsonDocument.

#[local] Abbreviation readCandidate := (readCandidate JSON_parse).
#[local] Abbreviation readCandidates := (readCandidates JSON_parse).
#[local] Abbreviation readFileConfig := (readFileConfig JSON_parse).
#[local] Abbreviation loadShortcuts := (loadShortcuts JSON_parse).
#[local] Abbreviation unusable := (unusable JSON_parse).

Lemma readCandidate_returns ws uri : ∃ found, readCandidate ws uri = Returned found.
Proof.
  unfold readCandidate, readFile, parse.
  destruct (files ws !! uri) as [text|]; simpl; [|by eexists].
  destruct (JSON_parse text) as [[|config]|]; simpl; by eexists.
Qed.

Lemma readCandidates_returns ws uris : ∃ found, readCandidates ws uris = Returned found.
Proof.
  induction uris as [|uri rest IH]; simpl; [by eexists|].
  destruct (readCandidate_returns ws uri) as [[config|] ->]; simpl; [by eexists | done].
Qed.

Lemma readFileConfig_returns ws : ∃ fromFile, readFileConfig ws = Returned fromFile.
Proof.
  unfold readFileConfig. destruct (workspaceFolders ws) as [[|root folders]|];
    [by eexists | apply readCandidates_returns | by eexists].
Qed.

Lemma readCandidate_unusable ws uri :
  unusable ws uri → readCandidate ws uri = Returned None.
Proof.
  unfold readCandidate, readFile, parse.
  intros [-> | (text & -> & Hparse)]; simpl; [done|]. by rewrite Hparse.
Qed.

Lemma readCandidate_parsed ws uri text config :
  files ws !! uri = Some text → JSON_parse text = Some (JsonObject config) →
  readCandidate ws uri = Returned (Some config).
Proof.
  intros Hfile Hparse. unfold readCandidate, readFile, parse.
  rewrite Hfile. simpl. by rewrite Hparse.
Qed.



(** What [loadShortcuts] returns, by what [readFileConfig] found. *)
Lemma loadShortcuts_file ws F :
  readFileConfig ws = Returned (Some {| commands := CommandsArray F |}) →
  loadShortcuts ws =
    Returned (normalizeShortcuts
                (if default true (settings_mergeUserAndWorkspace ws)
                 then mergeShortcuts F (default [] (settings_commands ws))
                 else F)).
Proof.
  intros Hfile. unfold loadShortcuts. rewrite Hfile. simpl.
  by destruct (default true _).
Qed.

Lemma loadShortcuts_no_file ws :
  readFileConfig ws = Returned None →
  loadShortcuts ws = Returned (normalizeShortcuts (default [] (settings_commands ws))).
Proof. intros Hfile. unfold loadShortcuts. by rewrite Hfile. Qed.

End Resolver_properties.

(** The scenario of the specification: the file has [a] and [b], the
    settings have [b] and [c], merging is on. *)
Example loadShortcuts_scenario :
  loadShortcuts sample_parse (sample_workspace "a b" b_c None) =
    Returned [withDefaults (shortcut "a" "file");
              withDefaults (shortcut "b" "file");
              withDefaults (shortcut "c" "settings")].
Proof. vm_compute. reflexivity. Qed.

Example readFileConfig_sample :
  readFileConfig sample_parse (sample_workspace "a b" b_c None) =
    Returned (Some {| commands := CommandsArray [shortcut "a" "file"; shortcut "b" "file"] |}).
Proof. vm_compute. reflexivity. Qed.

Lemma id_withDefaults s : id (withDefaults s) = id s.
Proof. done. Qed.

Lemma ids_normalizeShortcuts arr : id <$> normalizeShortcuts arr = id <$> arr.
Proof. unfold normalizeShortcuts. rewrite <- list_fmap_compose. by apply list_fmap_ext. Qed.

Lemma length_normalizeShortcuts arr : length (normalizeShortcuts arr) = length arr.
Proof. apply length_fmap. Qed.

Lemma normalizeShortcuts_app l k :
  normalizeShortcuts (l ++ k) = normalizeShortcuts l ++ normalizeShortcuts k.
Proof. apply fmap_app. Qed.

(** The set of primary ids holds exactly the ids of the primary list. *)
Lemma mergeShortcuts_extras primary secondary :
  mergeShortcuts primary secondary =
    primary ++ filter (λ s, id s ∉ id <$> primary) secondary.
Proof.
  unfold mergeShortcuts. f_equal. apply list_filter_iff. intros s.
  by rewrite elem_of_list_to_set.
Qed.

Lemma mergeShortcuts_NoDup primary secondary :
  NoDup (id <$> primary) → NoDup (id <$> secondary) →
  NoDup (id <$> mergeShortcuts primary secondary).
Proof.
  intros Hprimary Hsecondary. rewrite mergeShortcuts_extras, fmap_app.
  apply NoDup_app. split; [done|]. split.
  - intros i Hi Hextra. apply list_elem_of_fmap in Hextra as (s & -> & Hs).
    by apply list_elem_of_filter in Hs as [Hfresh _].
  - clear Hprimary. induction secondary as [|s rest IH]; [constructor|].
    rewrite fmap_cons in Hsecondary. apply NoDup_cons in Hsecondary as [Hs Hrest].
    rewrite filter_cons. destruct (decide _); [|by apply IH].
    rewrite fmap_cons. apply NoDup_cons. split; [|by apply IH].
    intros Hin. apply Hs. apply list_elem_of_fmap in Hin as (s' & -> & Hs').
    apply list_elem_of_filter in Hs' as [_ Hs']. apply list_elem_of_fmap. by exists s'.
Qed.

Section Resolver_claims.
Variable JSON_parse : string → option JsonDocument.

#[local] Abbreviation readFileConfig' := (readFileConfig JSON_parse).
#[local] Abbreviation loadShortcuts' := (loadShortcuts JSON_parse).

Lemma readFileConfig_with_settings_commands fromSettings ws :
  readFileConfig' (with_settings_commands fromSettings ws) = readFileConfig' ws.
Proof.
  unfold readFileConfig. simpl. by destruct (workspaceFolders ws) as [[|root folders]|].
Qed.

(** C1, amended: when the file provides the list [F] and merging is
    enabled, the resolved list starts with the [length F] records of [F],
    in order and with the field defaults applied, followed by exactly
    those records of the settings list whose ids are absent from [F], in
    the settings' order and with the defaults applied; a resolved record
    that carries an id of [F] sits in the file part, so for an id present
    in both sources it is the file's record that survives. *)
Theorem loadShortcuts_merge_file_first (ws : Workspace) (F : list TerminalShortcutConfig) :
  readFileConfig' ws = Returned (Some {| commands := CommandsArray F |}) →
  settings_mergeUserAndWorkspace ws ≠ Some false →
  ∃ resolved,
    loadShortcuts' ws = Returned resolved ∧
    take (length F) resolved = normalizeShortcuts F ∧
    drop (length F) resolved =
      normalizeShortcuts
        (filter (λ s, id s ∉ id <$> F) (default [] (settings_commands ws))) ∧
    ∀ i x, resolved !! i = Some x → id x ∈ id <$> F → i < length F.
Proof.
  intros Hfile Hmerge. eexists. split.
  { rewrite (loadShortcuts_file _ _ _ Hfile).
    destruct (settings_mergeUserAndWorkspace ws) as [[|]|]; simpl; done. }
  rewrite mergeShortcuts_extras, normalizeShortcuts_app.
  rewrite <- (length_normalizeShortcuts F).
  split; [apply take_app_length|]. split; [apply drop_app_length|].
  intros i x Hx Hid. destruct (decide (i < length (normalizeShortcuts F))) as [|Hge]; [done|].
  exfalso. rewrite lookup_app_r in Hx by lia.
  apply list_elem_of_lookup_2 in Hx.
  apply list_elem_of_fmap in Hx as (s & -> & Hs).
  by apply list_elem_of_filter in Hs as [Hfresh _].
Qed.

(** C4, amended: when the file provides the list [F] and merging is
    disabled, the resolved list is [F] with the field defaults applied,
    whatever the settings list is. *)
Theorem loadShortcuts_file_only (ws : Workspace) (F : list TerminalShortcutConfig) :
  readFileConfig' ws = Returned (Some {| commands := CommandsArray F |}) →
  settings_mergeUserAndWorkspace ws = Some false →
  loadShortcuts' ws = Returned (normalizeShortcuts F) ∧
  ∀ fromSettings,
    loadShortcuts' (with_settings_commands fromSettings ws) = Returned (normalizeShortcuts F).
Proof.
  intros Hfile Hmerge. split.
  - rewrite (loadShortcuts_file _ _ _ Hfile). by rewrite Hmerge.
  - intros fromSettings.
    rewrite (loadShortcuts_file _ _ F); [simpl; by rewrite Hmerge|].
    by rewrite readFileConfig_with_settings_commands.
Qed.


(** C3, amended: if the ids within the file list are pairwise distinct
    and the ids within the settings list are pairwise distinct, then the
    resolved list has pairwise-distinct ids, for every setting of the
    merge flag; and when, with merging enabled, a file record and a
    settings record have the same id, the file's record (with the
    defaults applied) is in the resolved list and is its only entry with
    that id. *)
Theorem loadShortcuts_distinct_ids (ws : Workspace) (resolved : list TerminalShortcutConfig) :
  loadShortcuts' ws = Returned resolved →
  (∀ F, readFileConfig' ws = Returned (Some {| commands := CommandsArray F |}) →
        NoDup (id <$> F)) →
  NoDup (id <$> default [] (settings_commands ws)) →
  NoDup (id <$> resolved) ∧
  ∀ F f s,
    readFileConfig' ws = Returned (Some {| commands := CommandsArray F |}) →
    settings_mergeUserAndWorkspace ws ≠ Some false →
    f ∈ F → s ∈ default [] (settings_commands ws) → id f = id s →
    withDefaults f ∈ resolved ∧
    ∀ x, x ∈ resolved → id x = id f → x = withDefaults f.
Proof.
  intros Hload HF HS.
  assert (Hdistinct : NoDup (id <$> resolved)).
  { destruct (readFileConfig_returns JSON_parse ws) as [fromFile Hfile].
    assert (Hsettings : loadShortcuts' ws =
              Returned (normalizeShortcuts (default [] (settings_commands ws))) →
            NoDup (id <$> resolved)).
    { intros Heq. rewrite Heq in Hload. injection Hload as <-.
      by rewrite ids_normalizeShortcuts. }
    destruct fromFile as [[[| |F]]|];
      try (apply Hsettings; unfold loadShortcuts; by rewrite Hfile).
    rewrite (loadShortcuts_file _ _ _ Hfile) in Hload. injection Hload as <-.
    rewrite ids_normalizeShortcuts. specialize (HF F Hfile).
    destruct (default true _); [by apply mergeShortcuts_NoDup | done]. }
  split; [done|].
  intros F f s Hfile Hmerge Hf Hs Hid.
  rewrite (loadShortcuts_file _ _ _ Hfile) in Hload. injection Hload as <-.
  assert (default true (settings_mergeUserAndWorkspace ws) = true) as Hon
    by (by destruct (settings_mergeUserAndWorkspace ws) as [[|]|]).
  rewrite Hon in Hdistinct |- *.
  assert (Hkept : withDefaults f ∈ normalizeShortcuts (mergeShortcuts F (default [] (settings_commands ws)))).
  { apply list_elem_of_fmap. exists f. split; [done|].
    rewrite mergeShortcuts_extras. apply elem_of_app. by left. }
  split; [done|].
  intros x Hx Hxid.
  apply list_elem_of_lookup in Hkept as [i Hi]. apply list_elem_of_lookup in Hx as [j Hj].
  assert (i = j) as ->; [|congruence].
  apply (NoDup_lookup _ i j (id f) Hdistinct); rewrite list_lookup_fmap.
  - by rewrite Hi.
  - rewrite Hj. simpl. by rewrite Hxid.
Qed.
End Resolver_claims.

(** C5: [normalizeShortcuts] keeps the length and works record by
    record.  For the record [s] at position [i] and the record [out] at
    that position of the result: every property of [s] is equal on
    [out], whether it is present or not, except that each of [reuse],
    [focus], [codicon] and [location] that is absent from [s] is [true],
    [true], ["terminal"] and [editor] on [out]. *)
Theorem normalizeShortcuts_defaults (arr : list TerminalShortcutConfig) (i : nat)
    (s : TerminalShortcutConfig) :
  arr !! i = Some s →
  length (normalizeShortcuts arr) = length arr ∧
  ∃ out,
    normalizeShortcuts arr !! i = Some out ∧
    id out = id s ∧ label out = label s ∧ command out = command s ∧
    terminalName out = terminalName s ∧ cwd out = cwd s ∧ env out = env s ∧
    statusBar out = statusBar s ∧ statusBarText out = statusBarText s ∧
    icon out = icon s ∧ viewColumn out = viewColumn s ∧
    (∀ v, reuse s = Some v → reuse out = Some v) ∧
    (∀ v, focus s = Some v → focus out = Some v) ∧
    (∀ v, codicon s = Some v → codicon out = Some v) ∧
    (∀ v, location s = Some v → location out = Some v) ∧
    (reuse s = None → reuse out = Some true) ∧
    (focus s = None → focus out = Some true) ∧
    (codicon s = None → codicon out = Some "terminal") ∧
    (location s = None → location out = Some editor).
Proof.
  intros Hs. split; [apply length_normalizeShortcuts|].
  exists (withDefaults s). split.
  { unfold normalizeShortcuts. by rewrite list_lookup_fmap, Hs. }
  simpl. repeat split; try done; try (by intros v ->); by intros ->.
Qed.

(** *** Concrete instances *)

Lemma loadShortcuts_merge_file_first_witness :
  ∃ resolved,
    loadShortcuts sample_parse (sample_workspace "a b" b_c None) = Returned resolved ∧
    take (length a_b) resolved = normalizeShortcuts a_b ∧
    drop (length a_b) resolved =
      normalizeShortcuts (filter (λ s, id s ∉ id <$> a_b) b_c) ∧
    ∀ i x, resolved !! i = Some x → id x ∈ id <$> a_b → i < length a_b.
Proof.
  apply (loadShortcuts_merge_file_first sample_parse (sample_workspace "a b" b_c None) a_b).
  - vm_compute. reflexivity.
  - simpl. discriminate.
Defined.

(** The first [length F] resolved records are not [F] itself when [F]
    leaves a defaulted property out. *)
Lemma loadShortcuts_merge_not_verbatim :
  readFileConfig sample_parse (sample_workspace "a b" b_c None) =
    Returned (Some {| commands := CommandsArray a_b |}) ∧
  ∃ resolved,
    loadShortcuts sample_parse (sample_workspace "a b" b_c None) = Returned resolved ∧
    take (length a_b) resolved ≠ a_b.
Proof.
  split; [vm_compute; reflexivity|]. eexists. split; [vm_compute; reflexivity|].
  simpl. discriminate.
Qed.

Lemma loadShortcuts_file_only_witness :
  loadShortcuts sample_parse (sample_workspace "a b" b_c (Some false)) =
    Returned (normalizeShortcuts a_b) ∧
  ∀ fromSettings,
    loadShortcuts sample_parse
      (with_settings_commands fromSettings (sample_workspace "a b" b_c (Some false))) =
      Returned (normalizeShortcuts a_b).
Proof.
  apply (loadShortcuts_file_only sample_parse (sample_workspace "a b" b_c (Some false)) a_b).
  - vm_compute. reflexivity.
  - reflexivity.
Defined.

(** With merging disabled the resolved list is not [F] exactly when [F]
    leaves a defaulted property out. *)
Lemma loadShortcuts_file_only_not_verbatim :
  readFileConfig sample_parse (sample_workspace "a b" b_c (Some false)) =
    Returned (Some {| commands := CommandsArray a_b |}) ∧
  a_b ≠ [] ∧
  ∃ resolved,
    loadShortcuts sample_parse (sample_workspace "a b" b_c (Some false)) = Returned resolved ∧
    resolved ≠ a_b.
Proof.
  split; [vm_compute; reflexivity|]. split; [discriminate|].
  eexists. split; [vm_compute; reflexivity|]. discriminate.
Qed.



Lemma loadShortcuts_distinct_ids_witness :
  NoDup (id <$> normalizeShortcuts (mergeShortcuts a_b b_c)) ∧
  ∀ F f s,
    readFileConfig sample_parse (sample_workspace "a b" b_c None) =
      Returned (Some {| commands := CommandsArray F |}) →
    settings_mergeUserAndWorkspace (sample_workspace "a b" b_c None) ≠ Some false →
    f ∈ F → s ∈ default [] (settings_commands (sample_workspace "a b" b_c None)) →
    id f = id s →
    withDefaults f ∈ normalizeShortcuts (mergeShortcuts a_b b_c) ∧
    ∀ x, x ∈ normalizeShortcuts (mergeShortcuts a_b b_c) → id x = id f → x = withDefaults f.
Proof.
  apply (loadShortcuts_distinct_ids sample_parse (sample_workspace "a b" b_c None)).
  - vm_compute. reflexivity.
  - intros F HF. vm_compute in HF. injection HF as <-. simpl.
    apply NoDup_cons. split; [|apply NoDup_singleton].
    intros Hin. apply list_elem_of_singleton in Hin. discriminate.
  - simpl. apply NoDup_cons. split; [|apply NoDup_singleton].
    intros Hin. apply list_elem_of_singleton in Hin. discriminate.
Defined.

(** Two file records with one id are both kept. *)
Lemma loadShortcuts_repeated_file_id :
  loadShortcuts sample_parse (sample_workspace "a a" [] None) =
    Returned [withDefaults (shortcut "a" "one"); withDefaults (shortcut "a" "two")] ∧
  ¬ NoDup (id <$> [withDefaults (shortcut "a" "one"); withDefaults (shortcut "a" "two")]).
Proof.
  split; [vm_compute; reflexivity|]. simpl. intros Hdistinct.
  apply NoDup_cons in Hdistinct as [Hin _]. apply Hin. by left.
Qed.

Lemma normalizeShortcuts_defaults_witness :
  length (normalizeShortcuts b_c) = length b_c ∧
  ∃ out,
    normalizeShortcuts b_c !! 1 = Some out ∧
    id out = "c" ∧ label out = "c" ∧ command out = "settings" ∧
    reuse out = Some true ∧ focus out = Some true ∧
    codicon out = Some "terminal" ∧ location out = Some editor.
Proof.
  destruct (normalizeShortcuts_defaults b_c 1 (shortcut "c" "settings") eq_refl)
    as (Hlen & out & Hout & Hid & Hlabel & Hcommand & _ & _ & _ & _ & _ & _ & _ &
        _ & _ & _ & _ & Hreuse & Hfocus & Hcodicon & Hlocation).
  split; [exact Hlen|]. exists out.
  split; [exact Hout|]. split; [exact Hid|]. split; [exact Hlabel|].
  split; [exact Hcommand|]. split; [exact (Hreuse eq_refl)|].
  split; [exact (Hfocus eq_refl)|]. split; [exact (Hcodicon eq_refl)|].
  exact (Hlocation eq_refl).
Defined.

(** ** The runner *)

Section Runner_properties.
Context (s : TerminalShortcutConfig) (w : Window).

Lemma runShortcut_reused (i : nat) (t : Terminal) :
  reuse s ≠ Some false →
  list_find (λ t, name t = terminalNameOf s) (terminals w) = Some (i, t) →
  runShortcut s w =
    (tt, {| terminals := alter (typed (command s) true) i (terminals w);
            focused := if bool_decide (focus s ≠ Some false) then focused w else Some i;
            errorMessages := errorMessages w |}).
Proof.
  intros Hreuse Hfind. unfold runShortcut, mbind, host_bind.
  rewrite decide_True by done. unfold findTerminal. by rewrite Hfind.
Qed.

Lemma runShortcut_created :
  reuse s = Some false ∨
  list_find (λ t, name t = terminalNameOf s) (terminals w) = None →
  runShortcut s w =
    (tt, {| terminals :=
              terminals w ++
                [{| name := terminalNameOf s;
                    creationOptions := Some (optionsOf s);
                    sent := [(command s, true)] |}];
            focused :=
              if bool_decide (focus s ≠ Some false) then
                match resolveTerminalLocation s with
                | EditorLocationOptions _ false => Some (length (terminals w))
                | _ => focused w
                end
              else Some (length (terminals w));
            errorMessages := errorMessages w |}).
Proof.
  intros Hnew. unfold runShortcut, mbind, host_bind.
  assert ((if decide (reuse s ≠ Some false) then findTerminal (terminalNameOf s) else mret None) w
          = (None, w)) as ->.
  { destruct (decide (reuse s ≠ Some false)) as [Hreuse|]; [|done].
    destruct Hnew as [Hnew | Hnew]; [done|]. unfold findTerminal. by rewrite Hnew. }
  unfold createTerminal, show, sendText. simpl. do 2 f_equal.
  replace (length (terminals w)) with (length (terminals w) + 0) at 1 by lia.
  by rewrite alter_app_r.
Qed.

Lemma runShortcut_errorMessages :
  errorMessages (runShortcut s w).2 = errorMessages w.
Proof.
  destruct (decide (reuse s ≠ Some false)) as [Hreuse | Hreuse].
  - destruct (list_find (λ t, name t = terminalNameOf s) (terminals w)) as [[i t]|] eqn:Hfind.
    + by rewrite (runShortcut_reused i t).
    + rewrite runShortcut_created; [done | by right].
  - rewrite runShortcut_created; [done|]. left.
    by destruct (reuse s) as [[|]|]; [exfalso; apply Hreuse | | exfalso; apply Hreuse].
Qed.
End Runner_properties.

(** C7: the terminal name is [terminalName] when that is present and not
    the empty string, else [label] when that is not the empty string,
    else [id].  When [reuse] is not [false] and some open terminal has
    exactly that name, no terminal is added and the command goes, with a
    new line, to the first terminal of that name, the others being left
    as they are.  Otherwise (so whenever [reuse] is [false], whatever is
    open) one terminal of that name is added, after the open ones, and
    gets the command. *)
Theorem runShortcut_reuse_or_create (s : TerminalShortcutConfig) (w : Window) :
  ((∀ n, terminalName s = Some n → n ≠ "" → terminalNameOf s = n) ∧
   (terminalName s = None ∨ terminalName s = Some "" →
    (label s ≠ "" → terminalNameOf s = label s) ∧
    (label s = "" → terminalNameOf s = id s))) ∧
  (reuse s ≠ Some false →
   (∃ t, t ∈ terminals w ∧ name t = terminalNameOf s) →
   length (terminals (runShortcut s w).2) = length (terminals w) ∧
   ∃ i t,
     terminals w !! i = Some t ∧ name t = terminalNameOf s ∧
     (∀ j u, terminals w !! j = Some u → j < i → name u ≠ terminalNameOf s) ∧
     terminals (runShortcut s w).2 = <[i := typed (command s) true t]> (terminals w)) ∧
  (reuse s = Some false ∨ ¬ (∃ t, t ∈ terminals w ∧ name t = terminalNameOf s) →
   terminals (runShortcut s w).2 =
     terminals w ++
       [{| name := terminalNameOf s;
           creationOptions := Some (optionsOf s);
           sent := [(command s, true)] |}]).
Proof.
  split; [|split].
  - unfold terminalNameOf, or_else. split.
    + intros n -> Hn. by destruct n.
    + intros [-> | ->]; split; intros Hlabel; by destruct (label s).
  - intros Hreuse (t & Ht & Hname).
    destruct (list_find_elem_of (λ t, name t = terminalNameOf s) _ _ Ht Hname) as [[i t'] Hfind].
    rewrite (runShortcut_reused s w i t' Hreuse Hfind). simpl.
    split; [apply length_alter|].
    apply list_find_Some in Hfind as (Hi & Hname' & Hfirst).
    exists i, t'. split; [done|]. split; [done|]. split; [done|].
    apply list_eq. intros j. destruct (decide (i = j)) as [<- | Hne].
    + rewrite list_lookup_alter_eq, Hi. simpl.
      by rewrite list_lookup_insert_eq by (by apply lookup_lt_Some in Hi).
    + by rewrite list_lookup_alter_ne, list_lookup_insert_ne.
  - intros Hnew. rewrite runShortcut_created; [done|].
    destruct Hnew as [Hnew | Hnew]; [by left | right].
    apply list_find_None, Forall_forall. intros t Ht Hname. apply Hnew. by exists t.
Qed.

(** *** Concrete runs *)

Lemma runShortcut_reuse_or_create_witness :
  length (terminals (runShortcut build build_open).2) = length (terminals build_open) ∧
  ∃ i t,
    terminals build_open !! i = Some t ∧ name t = terminalNameOf build ∧
    (∀ j u, terminals build_open !! j = Some u → j < i → name u ≠ terminalNameOf build) ∧
    terminals (runShortcut build build_open).2 =
      <[i := typed (command build) true t]> (terminals build_open).
Proof.
  apply (proj1 (proj2 (runShortcut_reuse_or_create build build_open))).
  - simpl. discriminate.
  - eexists. split; [apply list_elem_of_here | reflexivity].
Defined.

(** The scenarios of the specification: a record with [reuse = true] and
    a terminal of its name open, and the same record with
    [reuse = false]. *)
Example runShortcut_scenario_reuse :
  terminals (runShortcut build build_open).2 =
    [{| name := "Build"; creationOptions := None; sent := [("npm run build", true)] |}].
Proof. reflexivity. Qed.

Example runShortcut_scenario_no_reuse :
  terminals (runShortcut (with_reuse (Some false) build) build_open).2 =
    [{| name := "Build"; creationOptions := None; sent := [] |};
     {| name := "Build";
        creationOptions := Some (optionsOf (with_reuse (Some false) build));
        sent := [("npm run build", true)] |}].
Proof. reflexivity. Qed.

(** Which terminal has the keyboard focus after a run that reuses a
    terminal: [runShortcut] passes [s.focus !== false] to
    [Terminal.show], whose argument is [preserveFocus]. *)
Lemma runShortcut_reused_focus (s : TerminalShortcutConfig) (w : Window) (i : nat) (t : Terminal) :
  reuse s ≠ Some false →
  list_find (λ t, name t = terminalNameOf s) (terminals w) = Some (i, t) →
  (focus s ≠ Some false → focused (runShortcut s w).2 = focused w) ∧
  (focus s = Some false → focused (runShortcut s w).2 = Some i).
Proof.
  intros Hreuse Hfind. rewrite (runShortcut_reused s w i t Hreuse Hfind). simpl. split.
  - intros Hfocus. by rewrite bool_decide_eq_true_2.
  - intros Hfocus. by rewrite bool_decide_eq_false_2 by (by intros []).
Qed.

(** C8, as the code runs: the record [build] has [focus = true]; run
    with a terminal of its name open and the focus elsewhere, the
    terminal is reused and does not get the focus.  The same record with
    [focus = false] leaves the terminal focused.  The sibling
    [resolveTerminalLocation] computes [preserveFocus] the other way
    round, as [s.focus === false]. *)
Theorem runShortcut_focus_inverted :
  focus build = Some true ∧
  focused build_open = None ∧
  focused (runShortcut build build_open).2 = None ∧
  focused (runShortcut (with_focus (Some false) build) build_open).2 = Some 0 ∧
  terminals (runShortcut (with_focus (Some false) build) build_open).2 =
    [{| name := "Build"; creationOptions := None; sent := [("npm run build", true)] |}] ∧
  resolveTerminalLocation build = EditorLocationOptions Active false ∧
  resolveTerminalLocation (with_focus (Some false) build) = EditorLocationOptions Active true.
Proof. repeat split. Qed.

(** ** The run-by-id command *)

Lemma find_unknown_id (i : string) (l : list TerminalShortcutConfig) :
  (∀ s, s ∈ l → id s ≠ i) → list_find (λ x, id x = i) l = None.
Proof. intros Hunknown. apply list_find_None, Forall_forall. exact Hunknown. Qed.

(** C9, amended: for every id that is not the empty string and is the id
    of no record of the resolved list, the run-by-id command shows one
    error notice, naming the id, and does nothing else: the terminals,
    what was sent to them, the focus, the resolved list and the workspace
    are as before.  Run with the empty string or with no id at all, in
    whatever state, the command shows no notice and does nothing:
    everything is as before. *)
Theorem runShortcut_command_unknown_id (JSON_parse : string → option JsonDocument)
    (i : string) (st : Extension) :
  (i ≠ "" →
   (∀ s, s ∈ shortcuts st → id s ≠ i) →
   terminalShortcuts_runShortcut JSON_parse (Some i) st =
     {| window :=
          {| terminals := terminals (window st);
             focused := focused (window st);
             errorMessages :=
               errorMessages (window st) ++ ["Raccourci introuvable: " +:+ i] |};
        shortcuts := shortcuts st;
        workspace := workspace st |}) ∧
  terminalShortcuts_runShortcut JSON_parse (Some "") st = st ∧
  terminalShortcuts_runShortcut JSON_parse None st = st.
Proof.
  split; [|by split].
  intros Hi Hunknown. unfold terminalShortcuts_runShortcut, ensureLoaded. simpl.
  destruct i as [|c i]; [done|]. by rewrite (find_unknown_id _ _ Hunknown).
Qed.

Lemma runShortcut_command_unknown_id_witness :
  terminalShortcuts_runShortcut sample_parse (Some "deploy") build_loaded =
    {| window :=
         {| terminals := terminals build_open;
            focused := None;
            errorMessages := ["Raccourci introuvable: deploy"] |};
       shortcuts := [build];
       workspace := sample_workspace "a b" [] None |}.
Proof.
  apply (proj1 (runShortcut_command_unknown_id sample_parse "deploy" build_loaded)).
  - discriminate.
  - intros s Hs. apply list_elem_of_singleton in Hs as ->. discriminate.
Defined.

(** The empty string is the id of no record of the list, and the command
    run with it shows no notice: it leaves everything as it was. *)
Lemma runShortcut_command_empty_id_silent :
  (∀ s, s ∈ shortcuts build_loaded → id s ≠ "") ∧
  terminalShortcuts_runShortcut sample_parse (Some "") build_loaded = build_loaded ∧
  errorMessages (window (terminalShortcuts_runShortcut sample_parse (Some "") build_loaded)) = [].
Proof.
  split; [|split; reflexivity].
  intros s Hs. apply list_elem_of_singleton in Hs as ->. discriminate.
Qed.

(** * Further properties *)

(** ** The resolver beyond its two lists *)

Lemma withDefaults_idempotent s : withDefaults (withDefaults s) = withDefaults s.
Proof. unfold withDefaults. simpl. by destruct (reuse s), (focus s), (codicon s), (location s). Qed.

(** X1: applying the defaults twice is the same as applying them once,
    on every list of records. *)
Theorem normalizeShortcuts_idempotent (arr : list TerminalShortcutConfig) :
  normalizeShortcuts (normalizeShortcuts arr) = normalizeShortcuts arr.
Proof.
  unfold normalizeShortcuts. rewrite <- list_fmap_compose.
  apply list_fmap_ext. intros i s _. apply withDefaults_idempotent.
Qed.

(** X2: in every list that [loadShortcuts] returns, on whatever path,
    every record has [reuse], [focus], [codicon] and [location] present,
    so that normalising the resolved list again changes nothing. *)
Theorem loadShortcuts_fully_defaulted (JSON_parse : string → option JsonDocument)
    (ws : Workspace) (resolved : list TerminalShortcutConfig) :
  loadShortcuts JSON_parse ws = Returned resolved →
  Forall (λ s, is_Some (reuse s) ∧ is_Some (focus s) ∧
               is_Some (codicon s) ∧ is_Some (location s)) resolved ∧
  normalizeShortcuts resolved = resolved.
Proof.
  assert (Hnormal : ∀ arr,
    Forall (λ s, is_Some (reuse s) ∧ is_Some (focus s) ∧
                 is_Some (codicon s) ∧ is_Some (location s)) (normalizeShortcuts arr)).
  { intros arr. apply Forall_fmap, Forall_forall. intros s _. simpl.
    by destruct (reuse s), (focus s), (codicon s), (location s). }
  assert (Hstable : ∀ arr, normalizeShortcuts (normalizeShortcuts arr) = normalizeShortcuts arr).
  { intros arr. unfold normalizeShortcuts. rewrite <- list_fmap_compose.
    apply list_fmap_ext. intros i s _. apply withDefaults_idempotent. }
  unfold loadShortcuts. destruct (readFileConfig_returns JSON_parse ws) as [fromFile ->]. simpl.
  destruct fromFile as [[[| |F]]|]; try destruct (default true _);
    intros [= <-]; (split; [apply Hnormal | apply Hstable]).
Qed.

(** X3: merging never loses an id and never invents one: an id occurs in
    [mergeShortcuts primary secondary] exactly when it occurs in
    [primary] or in [secondary]; the merged list is at least as long as
    [primary] and at most as long as both lists together, and a list
    merged with itself is that list. *)
Theorem mergeShortcuts_ids (primary secondary : list TerminalShortcutConfig) :
  (∀ i, i ∈ id <$> mergeShortcuts primary secondary ↔
        i ∈ id <$> primary ∨ i ∈ id <$> secondary) ∧
  length primary ≤ length (mergeShortcuts primary secondary) ∧
  length (mergeShortcuts primary secondary) ≤ length primary + length secondary ∧
  mergeShortcuts primary primary = primary.
Proof.
  rewrite !mergeShortcuts_extras. split; [|split; [|split]].
  - intros i. rewrite fmap_app, elem_of_app. split.
    + intros [Hi | Hi]; [by left|]. right.
      apply list_elem_of_fmap in Hi as (s & -> & Hs).
      apply list_elem_of_filter in Hs as [_ Hs]. apply list_elem_of_fmap. by exists s.
    + intros [Hi | Hi]; [by left|].
      destruct (decide (i ∈ id <$> primary)) as [|Hfresh]; [by left|]. right.
      apply list_elem_of_fmap in Hi as (s & -> & Hs).
      apply list_elem_of_fmap. exists s. split; [done|].
      by apply list_elem_of_filter.
  - rewrite length_app. lia.
  - rewrite length_app. pose proof (length_filter (λ s, id s ∉ id <$> primary) secondary). lia.
  - rewrite <- (app_nil_r primary) at 3. f_equal.
    assert (Hnone : ∀ l, (∀ s, s ∈ l → id s ∈ id <$> primary) →
                         filter (λ s, id s ∉ id <$> primary) l = []).
    { induction l as [|s l IH]; intros Hl; [done|].
      rewrite filter_cons_False.
      - apply IH. intros s' Hs'. apply Hl. by right.
      - intros Hfresh. apply Hfresh, Hl. by left. }
    apply Hnone. intros s Hs. apply list_elem_of_fmap. by exists s.
Qed.

(** X4: the defaults and the merge commute: normalising a merged list
    gives the merge of the normalised lists. *)
Theorem normalizeShortcuts_mergeShortcuts (primary secondary : list TerminalShortcutConfig) :
  normalizeShortcuts (mergeShortcuts primary secondary) =
    mergeShortcuts (normalizeShortcuts primary) (normalizeShortcuts secondary).
Proof.
  rewrite !mergeShortcuts_extras, normalizeShortcuts_app, ids_normalizeShortcuts. f_equal.
  induction secondary as [|s rest IH]; [done|].
  unfold normalizeShortcuts in *. rewrite fmap_cons, !filter_cons. simpl.
  destruct (decide (id s ∉ id <$> primary)); by rewrite ?fmap_cons, IH.
Qed.

(** X5: of the two candidate files only the first folder's count, and
    the primary one wins: when it parses to an object, that object is
    the file configuration whatever the fallback holds; when it is
    missing, fails to parse, or parses to [null] or a primitive, the
    outcome is the fallback's alone. *)
Theorem readFileConfig_primary_first (JSON_parse : string → option JsonDocument)
    (ws : Workspace) (root : string) (folders : list string) :
  workspaceFolders ws = Some (root :: folders) →
  (∀ text config,
     files ws !! joinPath root ".vscode/terminal-shortcuts.json" = Some text →
     JSON_parse text = Some (JsonObject config) →
     readFileConfig JSON_parse ws = Returned (Some config)) ∧
  (unusable JSON_parse ws (joinPath root ".vscode/terminal-shortcuts.json") ∨
   (∃ text, files ws !! joinPath root ".vscode/terminal-shortcuts.json" = Some text ∧
            JSON_parse text = Some JsonPrimitive) →
   readFileConfig JSON_parse ws =
     readCandidate JSON_parse ws (joinPath root "terminal-shortcuts.json")).
Proof.
  intros Hfolders. unfold readFileConfig. rewrite Hfolders. simpl. split.
  - intros text config Hfile Hparse.
    by rewrite (readCandidate_parsed _ _ _ _ _ Hfile Hparse).
  - intros Hprimary.
    assert (readCandidate JSON_parse ws (joinPath root ".vscode/terminal-shortcuts.json")
            = Returned None) as ->.
    { destruct Hprimary as [Hunusable | (text & Hfile & Hparse)].
      - by apply readCandidate_unusable.
      - unfold readCandidate, readFile, parse. rewrite Hfile. simpl. by rewrite Hparse. }
    simpl.
    destruct (readCandidate_returns JSON_parse ws (joinPath root "terminal-shortcuts.json"))
      as [[config|] ->]; done.
Qed.

(** X6: a file document whose [commands] is missing, falsy, or anything
    but an array is passed over without a notice: the resolved list is
    the settings list with the defaults applied, whatever the merge flag
    is. *)
Theorem loadShortcuts_commands_not_array (JSON_parse : string → option JsonDocument)
    (ws : Workspace) (config : FileConfig) :
  readFileConfig JSON_parse ws = Returned (Some config) →
  commands config = CommandsMissing ∨ commands config = CommandsNotArray →
  loadShortcuts JSON_parse ws =
    Returned (normalizeShortcuts (default [] (settings_commands ws))).
Proof.
  intros Hfile Hshape. unfold loadShortcuts. rewrite Hfile. simpl.
  destruct config as [c]. simpl in Hshape. by destruct Hshape as [-> | ->].
Qed.

(** ** The runner beyond reuse *)

(** X7: where a new terminal is placed.  It is the panel exactly when
    [location] is [panel]; otherwise it is the editor area, in column
    two exactly when [viewColumn] is [2], in column three exactly when
    it is [3], and in the active column for every other or missing
    [viewColumn], and it is asked to leave the focus alone exactly when
    [focus] is [false]. *)
Theorem resolveTerminalLocation_cases (s : TerminalShortcutConfig) :
  (resolveTerminalLocation s = Panel ↔ location s = Some panel) ∧
  (location s ≠ Some panel →
   ∃ col preserve,
     resolveTerminalLocation s = EditorLocationOptions col preserve ∧
     (col = Two ↔ viewColumn s = Some 2%Z) ∧
     (col = Three ↔ viewColumn s = Some 3%Z) ∧
     (col = Active ↔ viewColumn s ≠ Some 2%Z ∧ viewColumn s ≠ Some 3%Z) ∧
     (preserve = true ↔ focus s = Some false)).
Proof.
  unfold resolveTerminalLocation. split.
  - destruct (decide (location s = Some panel)); split; done.
  - intros Hlocation. rewrite decide_False by done.
    eexists _, _. split; [reflexivity|].
    split; [|split; [|split]].
    + unfold toViewColumn. destruct (viewColumn s) as [[|[[]|[]|]|]|]; split; done.
    + unfold toViewColumn. destruct (viewColumn s) as [[|[[]|[]|]|]|]; split; done.
    + unfold toViewColumn.
      destruct (viewColumn s) as [[|[[]|[]|]|]|]; split; try done; by intros [].
    + apply bool_decide_eq_true.
Qed.






(** ** The run-by-id command on a known id *)

(** X10: the command run with a non-empty id runs the first record of
    the resolved list that has this id, and only it: the window is the
    one [runShortcut] leaves for that record, no notice is shown, and
    the resolved list and the workspace stay as they are.  A record
    behind another one with the same id is never reached by id. *)
Theorem runShortcut_command_first_match (JSON_parse : string → option JsonDocument)
    (i : string) (st : Extension) (idx : nat) (s : TerminalShortcutConfig) :
  i ≠ "" →
  shortcuts st !! idx = Some s →
  id s = i →
  (∀ j x, shortcuts st !! j = Some x → j < idx → id x ≠ i) →
  terminalShortcuts_runShortcut JSON_parse (Some i) st =
    {| window := (runShortcut s (window st)).2;
       shortcuts := shortcuts st;
       workspace := workspace st |} ∧
  errorMessages (window (terminalShortcuts_runShortcut JSON_parse (Some i) st)) =
    errorMessages (window st).
Proof.
  intros Hi Hs Hid Hfirst.
  assert (list_find (λ x, id x = i) (shortcuts st) = Some (idx, s)) as Hfind
    by (by apply list_find_Some).
  assert (terminalShortcuts_runShortcut JSON_parse (Some i) st =
          {| window := (runShortcut s (window st)).2;
             shortcuts := shortcuts st;
             workspace := workspace st |}) as ->.
  { unfold terminalShortcuts_runShortcut, ensureLoaded. simpl.
    destruct i as [|c i]; [done|]. by rewrite Hfind. }
  split; [done|]. simpl. apply runShortcut_errorMessages.
Qed.

(** ** Saving a shortcut *)

Section Upsert_properties.
Context (s : TerminalShortcutConfig) (current : list TerminalShortcutConfig).

Lemma upsert_found (idx : nat) (x : TerminalShortcutConfig) :
  list_find (λ x, id x = id s) current = Some (idx, x) →
  upsert s current = <[idx := s]> current ∧
  list_find (λ x, id x = id s) (upsert s current) = Some (idx, s).
Proof.
  intros Hfind. unfold upsert. rewrite Hfind. split; [done|].
  apply list_find_Some in Hfind as (Hidx & Hid & Hfirst).
  apply list_find_Some. split; [|split; [done|]].
  - apply list_lookup_insert_eq. by apply lookup_lt_Some in Hidx.
  - intros j y Hy Hlt. rewrite list_lookup_insert_ne in Hy by lia. by apply (Hfirst j).
Qed.

Lemma upsert_new :
  list_find (λ x, id x = id s) current = None →
  upsert s current = current ++ [s] ∧
  list_find (λ x, id x = id s) (upsert s current) = Some (length current, s).
Proof.
  intros Hfind. unfold upsert. rewrite Hfind. split; [done|].
  apply list_find_None in Hfind. rewrite Forall_forall in Hfind.
  apply list_find_Some. split; [by apply list_lookup_middle|]. split; [done|].
  intros j y Hy Hlt. rewrite lookup_app_l in Hy by done.
  apply Hfind. by apply list_elem_of_lookup_2 in Hy.
Qed.

Lemma upsert_ids_found (idx : nat) (x : TerminalShortcutConfig) :
  list_find (λ x, id x = id s) current = Some (idx, x) →
  id <$> upsert s current = id <$> current.
Proof.
  intros Hfind. rewrite (proj1 (upsert_found idx x Hfind)).
  apply list_find_Some in Hfind as (Hidx & Hid & _).
  rewrite list_fmap_insert. apply list_insert_id.
  by rewrite list_lookup_fmap, Hidx, <- Hid.
Qed.
End Upsert_properties.

(** X11: looking up by id after saving gives the saved record: in
    [upsert s current] the first record with the id of [s] is [s]
    itself, at the position of the first record of [current] with that
    id, or at the end when [current] has none; and saving the same
    record a second time changes nothing. *)
Theorem upsert_lookup (s : TerminalShortcutConfig) (current : list TerminalShortcutConfig) :
  list_find (λ x, id x = id s) (upsert s current) =
    Some (default (length current) (fst <$> list_find (λ x, id x = id s) current), s) ∧
  upsert s (upsert s current) = upsert s current.
Proof.
  destruct (list_find (λ x, id x = id s) current) as [[idx x]|] eqn:Hfind.
  - destruct (upsert_found s current idx x Hfind) as [Heq Hfound]. split; [done|].
    unfold upsert at 1. rewrite Hfound. apply list_insert_id.
    by apply list_find_Some in Hfound as (? & _).
  - destruct (upsert_new s current Hfind) as [Heq Hfound]. split; [done|].
    unfold upsert at 1. rewrite Hfound. apply list_insert_id.
    by apply list_find_Some in Hfound as (? & _).
Qed.


(** X13: saving keeps the ids pairwise distinct, and the ids after it
    are those before it together with the id of [s]. *)
Theorem upsert_distinct_ids (s : TerminalShortcutConfig) (current : list TerminalShortcutConfig) :
  NoDup (id <$> current) →
  NoDup (id <$> upsert s current) ∧
  ∀ i, i ∈ id <$> upsert s current ↔ i = id s ∨ i ∈ id <$> current.
Proof.
  intros Hdistinct.
  destruct (list_find (λ x, id x = id s) current) as [[idx x]|] eqn:Hfind.
  - rewrite (upsert_ids_found s current idx x Hfind). split; [done|].
    intros i. split; [by right|]. intros [-> | Hi]; [|done].
    apply list_find_Some in Hfind as (Hidx & Hid & _).
    apply list_elem_of_fmap. exists x. split; [done|]. by apply list_elem_of_lookup_2 in Hidx.
  - rewrite (proj1 (upsert_new s current Hfind)), fmap_app. simpl.
    apply list_find_None in Hfind. rewrite Forall_forall in Hfind.
    split.
    + apply NoDup_app. split; [done|]. split; [|apply NoDup_singleton].
      intros i Hi Hs. apply list_elem_of_singleton in Hs as ->.
      apply list_elem_of_fmap in Hi as (x & Hid & Hx). by apply (Hfind x).
    + intros i. rewrite elem_of_app, list_elem_of_singleton. tauto.
Qed.

Lemma upsert_find (s : TerminalShortcutConfig) (current : list TerminalShortcutConfig) :
  ∃ idx, list_find (λ x, id x = id s) (upsert s current) = Some (idx, s).
Proof.
  destruct (list_find (λ x, id x = id s) current) as [[idx x]|] eqn:Hfind.
  - exists idx. by apply (upsert_found s current idx x).
  - exists (length current). by apply upsert_new.
Qed.

Lemma list_find_normalizeShortcuts (i : string) (l : list TerminalShortcutConfig)
    (idx : nat) (s : TerminalShortcutConfig) :
  list_find (λ x, id x = i) l = Some (idx, s) →
  list_find (λ x, id x = i) (normalizeShortcuts l) = Some (idx, withDefaults s).
Proof.
  intros Hfind. apply list_find_Some in Hfind as (Hidx & Hid & Hfirst).
  apply list_find_Some. unfold normalizeShortcuts. split; [|split; [done|]].
  - by rewrite list_lookup_fmap, Hidx.
  - intros j y Hy Hlt. rewrite list_lookup_fmap in Hy.
    destruct (l !! j) as [x|] eqn:Hx; [|done]. injection Hy as <-.
    by apply (Hfirst j x).
Qed.

(** X14: [upsertGlobalShortcut] answers [false] exactly when the write
    to the user settings is rejected, and then leaves them as they were
    and shows one error notice.  When the write goes through it shows
    nothing, and the user settings hold the list in effect with the
    record saved into it; once that list is the one in effect and no
    file configuration is found, reloading gives a resolved list in
    which looking up the record's id finds the record, with the defaults
    applied. *)
Theorem upsertGlobalShortcut_outcome (JSON_parse : string → option JsonDocument)
    (s : TerminalShortcutConfig) (ws : Workspace) (u : UserSettings) (w : Window) :
  (upsertGlobalShortcut s ws u w).1.1 = negb (user_rejects u) ∧
  (user_rejects u = true →
   (upsertGlobalShortcut s ws u w).1.2 = u ∧
   terminals (upsertGlobalShortcut s ws u w).2 = terminals w ∧
   length (errorMessages (upsertGlobalShortcut s ws u w).2) = S (length (errorMessages w))) ∧
  (user_rejects u = false →
   (upsertGlobalShortcut s ws u w).2 = w ∧
   user_commands (upsertGlobalShortcut s ws u w).1.2 =
     Some (upsert s (default [] (settings_commands ws))) ∧
   ∀ ws',
     settings_commands ws' = user_commands (upsertGlobalShortcut s ws u w).1.2 →
     readFileConfig JSON_parse ws' = Returned None →
     ∃ resolved idx,
       loadShortcuts JSON_parse ws' = Returned resolved ∧
       list_find (λ x, id x = id s) resolved = Some (idx, withDefaults s)).
Proof.
  unfold upsertGlobalShortcut, updateGlobal.
  destruct (user_rejects u) eqn:Hrejects; simpl.
  - split; [done|]. split; [|done]. intros _. split; [done|]. split; [done|].
    rewrite length_app. simpl. lia.
  - split; [done|]. split; [done|]. intros _. split; [done|]. split; [done|].
    intros ws' Hsettings Hfile.
    rewrite (loadShortcuts_no_file _ _ Hfile), Hsettings. simpl.
    destruct (upsert_find s (default [] (settings_commands ws))) as [idx Hfind].
    eexists _, idx. split; [done|].
    by apply list_find_normalizeShortcuts.
Qed.

(** X15: duplicating into the user settings under a taken id.  With the
    answer "copy" the record is saved under a new id, the old id
    followed by "-global" and, if that is taken too, by "-k" for some
    [k >= 1]; the new id is the id of no record of the list in effect,
    so the list written is the old one with the copy appended and no
    record is replaced.  With the answer "overwrite" the list written
    has the same length.  Dismissing the question writes nothing and
    shows nothing. *)
Theorem duplicateGlobal_taken_id (s : TerminalShortcutConfig) (ws : Workspace)
    (u : UserSettings) (w : Window) :
  id s ∈ id <$> default [] (settings_commands ws) →
  user_rejects u = false →
  (∃ fresh,
     duplicateTarget s ws (Some copy) = Some (with_id fresh s) ∧
     (fresh ∉ id <$> default [] (settings_commands ws)) ∧
     (fresh = id s +:+ "-global" ∨
      ∃ k, 1 ≤ k ∧ fresh = (id s +:+ "-global") +:+ "-" +:+ pretty k) ∧
     user_commands (duplicateGlobal s ws (Some copy) u w).1.1 =
       Some (default [] (settings_commands ws) ++ [with_id fresh s])) ∧
  (∃ written,
     user_commands (duplicateGlobal s ws (Some overwrite) u w).1.1 = Some written ∧
     length written = length (default [] (settings_commands ws)) ∧
     s ∈ written) ∧
  duplicateGlobal s ws None u w = (u, w, []).
Proof.
  intros Htaken Haccepts.
  assert (Hexists : bool_decide (Exists (λ x, id x = id s) (default [] (settings_commands ws)))
                    = true).
  { apply bool_decide_eq_true, Exists_exists.
    apply list_elem_of_fmap in Htaken as (x & Hid & Hx). by exists x. }
  split; [|split].
  - set (current := default [] (settings_commands ws)) in *.
    set (ids := list_to_set (id <$> current) : gset string).
    set (fresh := makeUniqueId (id s +:+ "-global") ids).
    assert (Hfresh : (fresh ∉ ids) ∧
              (fresh = id s +:+ "-global" ∨
               ∃ k, 1 ≤ k ∧ fresh = (id s +:+ "-global") +:+ "-" +:+ pretty k)).
    { unfold fresh. destruct (decide (id s +:+ "-global" ∈ ids)) as [Hin | Hout].
      - destruct (makeUniqueId_taken _ _ Hin) as (k & Hk & -> & _ & Hfree & _).
        split; [done|]. right. exists k. split; [lia | done].
      - rewrite (makeUniqueId_fresh _ _ Hout). split; [done | by left]. }
    destruct Hfresh as [Hfree Hshape]. unfold ids in Hfree. rewrite elem_of_list_to_set in Hfree.
    assert (Htarget : duplicateTarget s ws (Some copy) = Some (with_id fresh s)).
    { unfold duplicateTarget. fold current. by rewrite Hexists. }
    exists fresh. split; [done|]. split; [done|]. split; [done|].
    unfold duplicateGlobal. rewrite Htarget.
    unfold upsertGlobalShortcut, updateGlobal. rewrite Haccepts. simpl. f_equal.
    fold current. apply upsert_new. apply list_find_None, Forall_forall.
    intros x Hx Hid. apply Hfree. simpl in Hid. rewrite <- Hid.
    apply list_elem_of_fmap. by exists x.
  - unfold duplicateGlobal, duplicateTarget. rewrite Hexists.
    unfold upsertGlobalShortcut, updateGlobal. rewrite Haccepts. simpl.
    eexists. split; [done|].
    destruct (upsert_find s (default [] (settings_commands ws))) as [idx Hfind].
    apply list_find_Some in Hfind as (Hidx & _). split.
    + apply list_elem_of_fmap in Htaken as (x & Hid & Hx).
      destruct (list_find_elem_of (λ y, id y = id s) _ x Hx (eq_sym Hid)) as [[i y] Hfound].
      rewrite (proj1 (upsert_found s _ i y Hfound)). apply length_insert.
    + by apply list_elem_of_lookup_2 in Hidx.
  - unfold duplicateGlobal, duplicateTarget. by rewrite Hexists.
Qed.

(** ** The prompt sequence *)

(** What the prompt sequence makes of the answers. *)
Lemma promptedShortcut_record (trim : string → string) (a : PromptAnswers) :
  (is_Some (promptedShortcut trim a) ↔
   is_Some (truthy (answer_label a)) ∧ is_Some (truthy (answer_command a)) ∧
   is_Some (truthy (answer_id a))) ∧
  ∀ s, promptedShortcut trim a = Some s →
    (answer_label a = Some (label s) ∧ label s ≠ "") ∧
    (answer_command a = Some (command s) ∧ command s ≠ "") ∧
    (answer_id a = Some (id s) ∧ id s ≠ "") ∧
    reuse s = Some true ∧ focus s = Some true ∧
    (∃ c, codicon s = Some c ∧ c ≠ "") ∧
    (location s = Some panel ↔
     ∃ where_, answer_where a = Some where_ ∧ String.prefix "Panneau" where_ = true) ∧
    (statusBar s = Some true ↔ answer_showInStatus a = Some "Oui") ∧
    withDefaults s = s.
Proof.
  unfold promptedShortcut. split.
  - destruct (truthy (answer_label a)), (truthy (answer_command a)), (truthy (answer_id a));
      simpl; split; try (intros [? [? ?]]); try by eauto.
    all: try (intros [x Hx]; done). all: by inversion 1.
  - intros s Hs.
    destruct (answer_label a) as [[|c1 l1]|]; simpl in Hs; try done.
    destruct (answer_command a) as [[|c2 l2]|]; simpl in Hs; try done.
    destruct (answer_id a) as [[|c3 l3]|]; simpl in Hs; try done.
    injection Hs as <-. simpl. repeat split; try done.
    + destruct (truthy (answer_codicon a)) as [c|]; [|by eexists].
      destruct (trim c) as [|ch rest]; simpl; by eexists.
    + destruct (answer_where a) as [where_|]; [|done].
      destruct (String.prefix "Panneau" where_) eqn:Hprefix; [|done]. by exists where_.
    + intros (where_ & -> & ->). done.
    + intros Hstatus. injection Hstatus as Hstatus. by apply bool_decide_eq_true in Hstatus.
    + intros ->. done.
Qed.

(** X16: the prompt sequence creates a record exactly when the label,
    the command and the id were each answered with a non-empty string
    and the user settings take the write; dismissing any later prompt
    does not stop it.  The record has these three answers, [reuse] and
    [focus] [true], a [codicon] that is never the empty string, the
    location [panel] only for an answer starting with "Panneau"; it is
    unchanged by the defaults, and the user settings then hold the list
    in effect with the record saved into it. *)
Theorem promptAndCreateGlobalShortcut_created (trim : string → string) (a : PromptAnswers)
    (ws : Workspace) (u : UserSettings) (w : Window) :
  (is_Some (promptAndCreateGlobalShortcut trim a ws u w).1.1 ↔
   is_Some (truthy (answer_label a)) ∧ is_Some (truthy (answer_command a)) ∧
   is_Some (truthy (answer_id a)) ∧ user_rejects u = false) ∧
  ∀ s, (promptAndCreateGlobalShortcut trim a ws u w).1.1 = Some s →
    (answer_label a = Some (label s) ∧ label s ≠ "") ∧
    (answer_command a = Some (command s) ∧ command s ≠ "") ∧
    (answer_id a = Some (id s) ∧ id s ≠ "") ∧
    reuse s = Some true ∧ focus s = Some true ∧
    (∃ c, codicon s = Some c ∧ c ≠ "") ∧
    (location s = Some panel ↔
     ∃ where_, answer_where a = Some where_ ∧ String.prefix "Panneau" where_ = true) ∧
    (statusBar s = Some true ↔ answer_showInStatus a = Some "Oui") ∧
    withDefaults s = s ∧
    user_commands (promptAndCreateGlobalShortcut trim a ws u w).1.2 =
      Some (upsert s (default [] (settings_commands ws))) ∧
    (promptAndCreateGlobalShortcut trim a ws u w).2 = w.
Proof.
  destruct (promptedShortcut_record trim a) as [Hsome Hrecord].
  unfold promptAndCreateGlobalShortcut, upsertGlobalShortcut, updateGlobal.
  destruct (promptedShortcut trim a) as [new|] eqn:Hnew; simpl.
  - destruct (user_rejects u) eqn:Hrejects; simpl.
    + split; [split; [by intros [? ?] | by intros (_ & _ & _ & ?)]|]. done.
    + split.
      * split; [intros _ | by eexists].
        destruct (proj1 Hsome) as (? & ? & ?); [by eexists | done].
      * intros s [= <-].
        destruct (Hrecord new eq_refl) as (? & ? & ? & ? & ? & ? & ? & ? & ?). done.
  - split; [|done]. split; [by intros [? ?]|].
    intros (Hl & Hc & Hi & _). destruct (proj2 Hsome) as [? ?]; done.
Qed.

(** ** Icons *)

Lemma prefix_app (s1 s2 : string) :
  String.prefix s1 s2 = true ↔ ∃ post, s2 = s1 +:+ post.
Proof.
  revert s2. induction s1 as [|a s1 IH]; intros [|b s2]; cbn [String.prefix].
  - split; [by exists "" | done].
  - split; [by exists (String b s2) | done].
  - split; [done | by intros [post ?]].
  - destruct (Ascii.ascii_dec a b) as [<- | Hne].
    + rewrite IH. split; intros [post Hpost]; exists post.
      * by rewrite Hpost.
      * by injection Hpost.
    + split; [done|]. intros [post Hpost]. by injection Hpost.
Qed.

Lemma hasDrive_somewhere (p : string) :
  hasDrive p = true ↔
  ∃ pre c post,
    p = pre +:+ String c (":" +:+ String backslash post) ∧ isLetter c = true.
Proof.
  induction p as [|c rest IH]; cbn [hasDrive].
  - split; [done|]. intros (pre & c & post & Hp & _). by destruct pre.
  - rewrite orb_true_iff, andb_true_iff, IH, prefix_app. split.
    + intros [[Hletter [post ->]] | (pre & c' & post & -> & Hletter)].
      * by exists "", c, post.
      * by exists (String c pre), c', post.
    + intros ([|c0 pre] & c' & post & Hp & Hletter); simpl in Hp.
      * injection Hp as -> ->. left. split; [done|]. by exists post.
      * injection Hp as -> ->. right. by exists pre, c', post.
Qed.

(** X17: how an icon path is resolved.  The path itself is never
    rewritten.  It is taken from the first workspace folder exactly when
    a folder is open and the path starts with "./" or "../" (and not
    with "images/"); it is taken as a file path exactly when it does not
    start with "images/", is not such a workspace path, and either
    starts with "/" or holds, anywhere, a letter followed by a colon and
    a backslash; in every other case, and always for a path starting
    with "images/", it is taken from the extension. *)
Theorem resolveIconUri_cases (ws : Workspace) (p : string) :
  let folder := match workspaceFolders ws with Some (root :: _) => Some root | _ => None end in
  let relative := String.prefix "./" p || String.prefix "../" p in
  (String.prefix "images/" p = true → resolveIconUri ws p = ExtensionAsset p) ∧
  (∀ root, resolveIconUri ws p = WorkspaceRelative root p ↔
     String.prefix "images/" p = false ∧ folder = Some root ∧ relative = true) ∧
  (resolveIconUri ws p = AbsoluteFile p ↔
     String.prefix "images/" p = false ∧ (folder = None ∨ relative = false) ∧
     (String.prefix "/" p = true ∨
      ∃ pre c post,
        p = pre +:+ String c (":" +:+ String backslash post) ∧ isLetter c = true)) ∧
  (resolveIconUri ws p = ExtensionAsset p ∨
   (∃ root, resolveIconUri ws p = WorkspaceRelative root p) ∨
   resolveIconUri ws p = AbsoluteFile p).
Proof.
  intros folder relative. rewrite <- hasDrive_somewhere.
  unfold resolveIconUri. fold folder. fold relative.
  destruct (String.prefix "images/" p).
  { split; [done|]. split; [|split; [|by left]].
    - intros root. split; [done | by intros [? _]].
    - split; [done | by intros [? _]]. }
  split; [done|]. unfold looksAbsolute.
  destruct folder as [root|];
    [destruct relative|];
    destruct (String.prefix "/" p); destruct (hasDrive p); simpl;
    (split; [intros root'; split; [intros [= ->] | intros (_ & [= ->] & ?)]; try done|]);
    (split; [split; [intros ? | intros (_ & Hrel & Habs)]; try done; repeat split;
             try (by left); try (by right); try destruct Hrel; try destruct Habs; try done|]);
    eauto.
Qed.

(** X18: the tree never gets an empty icon.  A record without [icon], or
    with neither a [light] nor a [dark] path that is not empty, gets the
    theme icon of its [codicon], "terminal" when that is missing or
    empty; otherwise it gets its own paths, at least one of them, each
    present exactly when the record gives a non-empty one. *)
Theorem resolveTreeItemIcon_never_empty (ws : Workspace) (s : TerminalShortcutConfig) :
  match resolveTreeItemIcon ws s with
  | ThemeIcon c =>
      c ≠ "" ∧ c = or_else (codicon s) "terminal" ∧
      (∀ paths, icon s = Some paths →
         truthy (light paths) = None ∧ truthy (dark paths) = None)
  | IconPaths l d =>
      (is_Some l ∨ is_Some d) ∧
      ∃ paths, icon s = Some paths ∧
        l = resolveIconUri ws <$> truthy (light paths) ∧
        d = resolveIconUri ws <$> truthy (dark paths)
  end.
Proof.
  unfold resolveTreeItemIcon.
  assert (Hcodicon : or_else (codicon s) "terminal" ≠ "").
  { unfold or_else. by destruct (codicon s) as [[|]|]. }
  destruct (icon s) as [paths|]; [|done].
  destruct (truthy (light paths)) as [l|] eqn:Hl, (truthy (dark paths)) as [d|] eqn:Hd; simpl.
  - split; [left; by eexists|]. exists paths. by rewrite Hl, Hd.
  - split; [left; by eexists|]. exists paths. by rewrite Hl, Hd.
  - split; [right; by eexists|]. exists paths. by rewrite Hl, Hd.
  - split; [done|]. split; [done|]. by intros ? [= <-].
Qed.

(** ** Clicking an item of the tree *)

(** X19: the tree has one item per resolved record, in order, and each
    item runs the run-by-id command with the id of its record.  So a
    click on the item of a record whose id is empty does nothing at all;
    a click on the item of a record with a non-empty id runs the first
    resolved record with that id, which is the item's own record when
    the resolved ids are pairwise distinct. *)
Theorem getChildren_click (JSON_parse : string → option JsonDocument) (st : Extension)
    (k : nat) (item : ShortcutTreeItem) :
  getChildren st !! k = Some item →
  length (getChildren st) = length (shortcuts st) ∧
  shortcuts st !! k = Some (item_shortcut item) ∧
  (id (item_shortcut item) = "" →
   executeCommand JSON_parse (item_command item) st = Some st) ∧
  (id (item_shortcut item) ≠ "" →
   ∃ j s,
     list_find (λ x, id x = id (item_shortcut item)) (shortcuts st) = Some (j, s) ∧
     j ≤ k ∧
     executeCommand JSON_parse (item_command item) st =
       Some {| window := (runShortcut s (window st)).2;
               shortcuts := shortcuts st;
               workspace := workspace st |} ∧
     (NoDup (id <$> shortcuts st) → j = k ∧ s = item_shortcut item)).
Proof.
  unfold getChildren. intros Hitem. rewrite list_lookup_fmap in Hitem.
  destruct (shortcuts st !! k) as [s|] eqn:Hs; [|done]. injection Hitem as <-. simpl.
  split; [apply length_fmap|]. split; [done|].
  unfold executeCommand, terminalShortcuts_runShortcut, ensureLoaded. simpl. split.
  - by intros ->.
  - intros Hid.
    destruct (list_find_elem_of (λ x, id x = id s) (shortcuts st) s) as [[j s'] Hfind];
      [by apply list_elem_of_lookup_2 in Hs | done |].
    exists j, s'. split; [done|].
    pose proof Hfind as Hfound. apply list_find_Some in Hfound as (Hj & Hsame & Hfirst).
    assert (j ≤ k) as Hle.
    { destruct (decide (j ≤ k)) as [|Hgt]; [done|]. exfalso. apply (Hfirst k s Hs); [lia | done]. }
    split; [done|]. split.
    + destruct (id s) as [|c i] eqn:Hids; [done|]. by rewrite Hfind.
    + intros Hdistinct.
      assert (j = k) as ->; [|split; [done | congruence]].
      apply (NoDup_lookup _ j k (id s) Hdistinct); rewrite list_lookup_fmap.
      * by rewrite Hj, <- Hsame.
      * by rewrite Hs.
Qed.

(** ** The status bar *)

(** The records [rebuildStatusBar] makes an item for. *)
Definition inStatusBar (cfg : StatusBarSettings) (s : TerminalShortcutConfig) : Prop :=
  default false (showInStatusBar cfg) || bool_decide (statusBar s = Some true) = true.

#[global] Instance inStatusBar_dec cfg s : Decision (inStatusBar cfg s).
Proof. unfold inStatusBar. apply _. Defined.

(** Every item on display is one [statusBarItems] knows, so that the
    next [disposeStatusBar] takes it away. *)
Definition allVisibleTracked (bar : StatusBar) : Prop :=
  ∀ handle item,
    items bar !! handle = Some item → visible item = true →
    ∃ i, statusBarItems bar !! i = Some handle.

Section StatusBar_properties.
Context (trim : string → string) (cfg : StatusBarSettings).

Lemma disposeStatusBar_clears (bar : StatusBar) :
  allVisibleTracked bar →
  length (items (disposeStatusBar bar)) = length (items bar) ∧
  statusBarItems (disposeStatusBar bar) = ∅ ∧
  ∀ handle item, items (disposeStatusBar bar) !! handle = Some item → visible item = false.
Proof.
  intros Htracked. unfold disposeStatusBar. simpl.
  split; [apply length_imap|]. split; [done|].
  intros handle item Hitem. rewrite list_lookup_imap in Hitem.
  destruct (items bar !! handle) as [old|] eqn:Hold; [|done]. simpl in Hitem.
  destruct (decide (handle ∈ (map_img (statusBarItems bar) : gset nat))) as [|Huntracked].
  - by injection Hitem as <-.
  - injection Hitem as <-. destruct (visible old) eqn:Hvisible; [|done].
    exfalso. apply Huntracked. apply elem_of_map_img.
    destruct (Htracked handle old Hold Hvisible) as [i Hi]. by exists i.
Qed.

Lemma addStatusBarItem_shown (bar : StatusBar) (s : TerminalShortcutConfig) :
  inStatusBar cfg s →
  addStatusBarItem trim cfg bar s =
    {| items := items bar ++ [statusBarItemFor trim cfg s];
       statusBarItems := <[id s := length (items bar)]> (statusBarItems bar) |}.
Proof. unfold inStatusBar, addStatusBarItem. by intros ->. Qed.

Lemma addStatusBarItem_hidden (bar : StatusBar) (s : TerminalShortcutConfig) :
  ¬ inStatusBar cfg s → addStatusBarItem trim cfg bar s = bar.
Proof.
  unfold inStatusBar, addStatusBarItem. intros Hhidden.
  apply not_true_is_false in Hhidden. by rewrite Hhidden.
Qed.

Lemma addStatusBarItem_items (shortcuts : list TerminalShortcutConfig) (bar : StatusBar) :
  items (foldl (addStatusBarItem trim cfg) bar shortcuts) =
    items bar ++ (statusBarItemFor trim cfg <$> filter (inStatusBar cfg) shortcuts).
Proof.
  revert bar. induction shortcuts as [|s rest IH]; intros bar; simpl; [by rewrite app_nil_r|].
  rewrite IH, filter_cons.
  destruct (decide (inStatusBar cfg s)) as [Hshown | Hhidden].
  - rewrite (addStatusBarItem_shown _ _ Hshown). simpl. by rewrite <- app_assoc.
  - by rewrite (addStatusBarItem_hidden _ _ Hhidden).
Qed.

Lemma addStatusBarItem_tracked (shortcuts : list TerminalShortcutConfig) (bar : StatusBar) :
  (∀ s, s ∈ filter (inStatusBar cfg) shortcuts → statusBarItems bar !! id s = None) →
  NoDup (id <$> filter (inStatusBar cfg) shortcuts) →
  (∀ i handle, statusBarItems bar !! i = Some handle →
     statusBarItems (foldl (addStatusBarItem trim cfg) bar shortcuts) !! i = Some handle) ∧
  (∀ j s, filter (inStatusBar cfg) shortcuts !! j = Some s →
     statusBarItems (foldl (addStatusBarItem trim cfg) bar shortcuts) !! id s =
       Some (length (items bar) + j)).
Proof.
  revert bar. induction shortcuts as [|s rest IH]; intros bar Hfree Hdistinct; simpl.
  { split; [done|]. by intros j s. }
  rewrite filter_cons in Hfree, Hdistinct |- *.
  destruct (decide (inStatusBar cfg s)) as [Hshown | Hhidden].
  - rewrite (addStatusBarItem_shown _ _ Hshown).
    rewrite fmap_cons in Hdistinct. apply NoDup_cons in Hdistinct as [Hs Hrest].
    destruct (IH {| items := items bar ++ [statusBarItemFor trim cfg s];
                    statusBarItems := <[id s := length (items bar)]> (statusBarItems bar) |})
      as [Hkept Hnew]; [|done|].
    { intros s' Hs'. simpl. rewrite lookup_insert_ne.
      - apply Hfree. by right.
      - intros Heq. apply Hs. rewrite Heq. apply list_elem_of_fmap. by exists s'. }
    simpl in Hkept, Hnew. split.
    + intros i handle Hi. apply Hkept. rewrite lookup_insert_ne; [done|].
      intros <-. rewrite Hfree in Hi; [done | by left].
    + intros [|j] s' Hs'; simpl in Hs'.
      * injection Hs' as <-. rewrite Nat.add_0_r. apply Hkept. by rewrite lookup_insert_eq.
      * rewrite (Hnew j s' Hs'), length_app. simpl. f_equal. lia.
  - rewrite (addStatusBarItem_hidden _ _ Hhidden). by apply IH.
Qed.

(** X20: rebuilding the status bar when the records shown in it have
    pairwise distinct ids.  Started with every item on display known to
    [statusBarItems], it takes every earlier item off the display, puts
    up one item per record shown, in order, each found in
    [statusBarItems] under its record's id, and again leaves every item
    on display known to [statusBarItems]. *)
Theorem rebuildStatusBar_tracks_items (shortcuts : list TerminalShortcutConfig)
    (bar : StatusBar) :
  allVisibleTracked bar →
  NoDup (id <$> filter (inStatusBar cfg) shortcuts) →
  (∀ handle item, items bar !! handle = Some item →
     ∃ item', items (rebuildStatusBar trim cfg shortcuts bar) !! handle = Some item' ∧
              visible item' = false) ∧
  drop (length (items bar)) (items (rebuildStatusBar trim cfg shortcuts bar)) =
    statusBarItemFor trim cfg <$> filter (inStatusBar cfg) shortcuts ∧
  (∀ j s, filter (inStatusBar cfg) shortcuts !! j = Some s →
     statusBarItems (rebuildStatusBar trim cfg shortcuts bar) !! id s =
       Some (length (items bar) + j)) ∧
  allVisibleTracked (rebuildStatusBar trim cfg shortcuts bar).
Proof.
  intros Htracked Hdistinct. unfold rebuildStatusBar.
  destruct (disposeStatusBar_clears bar Htracked) as (Hlength & Hempty & Hgone).
  destruct (addStatusBarItem_tracked shortcuts (disposeStatusBar bar)) as [_ Hnew];
    [intros s _; by rewrite Hempty | done |].
  rewrite Hlength in Hnew.
  pose proof (addStatusBarItem_items shortcuts (disposeStatusBar bar)) as Hitems.
  split; [|split; [|split; [done|]]].
  - intros handle item Hitem. pose proof (lookup_lt_Some _ _ _ Hitem) as Hlt.
    rewrite <- Hlength in Hlt. destruct (lookup_lt_is_Some_2 _ _ Hlt) as [item' Hitem'].
    exists item'. split; [|by apply (Hgone handle)].
    rewrite Hitems. by rewrite lookup_app_l.
  - rewrite Hitems, <- Hlength. apply drop_app_length.
  - intros handle item Hitem Hvisible. rewrite Hitems in Hitem.
    destruct (decide (handle < length (items (disposeStatusBar bar)))) as [Hold | Hfresh].
    + rewrite lookup_app_l in Hitem by done. by rewrite (Hgone handle item Hitem) in Hvisible.
    + rewrite lookup_app_r in Hitem by lia. rewrite list_lookup_fmap in Hitem.
      destruct (filter (inStatusBar cfg) shortcuts !! (handle - length (items (disposeStatusBar bar))))
        as [s|] eqn:Hs; [|done].
      exists (id s). rewrite (Hnew _ s Hs). f_equal. lia.
Qed.
End StatusBar_properties.

(** ** Escaping for the form *)

(** Whether the character [a] occurs in [s]. *)
Fixpoint occurs (a : Ascii.ascii) (s : string) : bool :=
  match s with
  | EmptyString => false
  | String c rest => bool_decide (c = a) || occurs a rest
  end.

Lemma occurs_app (a : Ascii.ascii) (s1 s2 : string) :
  occurs a (s1 +:+ s2) = occurs a s1 || occurs a s2.
Proof. induction s1 as [|c s1 IH]; simpl; [done|]. by rewrite IH, orb_assoc. Qed.

Lemma escapedChar_head (c1 c2 : Ascii.ascii) (r1 r2 : string) :
  escapedChar c1 +:+ r1 = escapedChar c2 +:+ r2 → c1 = c2 ∧ r1 = r2.
Proof.
  unfold escapedChar. simpl.
  repeat case_decide; simpl; intros Heq; simplify_eq; done.
Qed.

(** X21: the text put into the form's list is free of "<" and ">"
    whatever the id, label or command holds; escaping loses nothing (two
    different texts stay different); and a character other than "&",
    "<" and ">", the double quote for one, is passed on as it is. *)
Theorem escaped_safe (s : string) :
  (∀ a, String a EmptyString = "<" ∨ String a EmptyString = ">" →
        occurs a (escaped s) = false) ∧
  (∀ s', escaped s = escaped s' → s = s') ∧
  (∀ a, String a EmptyString ≠ "&" → String a EmptyString ≠ "<" →
        String a EmptyString ≠ ">" →
        escaped (String a s) = String a (escaped s)).
Proof.
  split; [|split].
  - intros a Ha.
    assert (Hchar : ∀ c, occurs a (escapedChar c) = false).
    { intros c. unfold escapedChar. simpl.
      destruct Ha as [Ha | Ha]; injection Ha as ->; repeat case_decide; try reflexivity;
        simpl; rewrite orb_false_r; apply bool_decide_eq_false; by intros ->. }
    induction s as [|c rest IH]; simpl; [done|]. by rewrite occurs_app, Hchar, IH.
  - induction s as [|c rest IH]; intros [|c' rest']; simpl; intros Heq.
    + done.
    + exfalso. unfold escapedChar in Heq. simpl in Heq. repeat case_decide; simplify_eq.
    + exfalso. unfold escapedChar in Heq. simpl in Heq. repeat case_decide; simplify_eq.
    + apply escapedChar_head in Heq as [-> Hrest]. f_equal. by apply IH.
  - intros a Hamp Hlt Hgt. simpl. unfold escapedChar. simpl. by rewrite !decide_False.
Qed.

(** ** Writing the configuration file *)

(** The file the two writers address is the resolver's primary
    candidate. *)
Lemma primary_path (root : string) :
  joinPath (joinPath root ".vscode") "terminal-shortcuts.json" =
    joinPath root ".vscode/terminal-shortcuts.json".
Proof.
  unfold joinPath. induction root as [|c root IH]; [done|].
  change (String c ((root +:+ "/" +:+ ".vscode") +:+ "/" +:+ "terminal-shortcuts.json") =
          String c (root +:+ "/" +:+ ".vscode/terminal-shortcuts.json")).
  by rewrite IH.
Qed.

Lemma list_find_mergeShortcuts (i : string) (primary secondary : list TerminalShortcutConfig)
    (idx : nat) (s : TerminalShortcutConfig) :
  list_find (λ x, id x = i) primary = Some (idx, s) →
  list_find (λ x, id x = i) (mergeShortcuts primary secondary) = Some (idx, s).
Proof. intros Hfind. unfold mergeShortcuts. by apply list_find_app_l. Qed.

Section ConfigurationFile_properties.
Context (JSON_parse_value : string → option JsonValue) (JSON_stringify : JsonValue → string).

(** The resolver's parser, from the parser of values. *)
Definition parseObserved (text : string) : option JsonDocument :=
  observed <$> JSON_parse_value text.

Lemma readFileConfig_written (ws : Workspace) (root : string) (folders : list string)
    (config : FileConfig) :
  JSON_parse_value (JSON_stringify (JsonRecord config)) = Some (JsonRecord config) →
  workspaceFolders ws = Some (root :: folders) →
  readFileConfig parseObserved
    (with_files (<[joinPath (joinPath root ".vscode") "terminal-shortcuts.json" :=
                     JSON_stringify (JsonRecord config)]> (files ws)) ws) =
    Returned (Some config).
Proof.
  intros Hround Hfolders. rewrite primary_path.
  unfold readFileConfig. cbn [workspaceFolders with_files]. rewrite Hfolders.
  cbn [readCandidates].
  rewrite (readCandidate_parsed _ _ (joinPath root ".vscode/terminal-shortcuts.json")
             (JSON_stringify (JsonRecord config)) config);
    [reflexivity| |].
  - cbn [files with_files]. apply lookup_insert_eq.
  - unfold parseObserved. by rewrite Hround.
Qed.

Lemma loadShortcuts_finds_file_record (ws : Workspace) (F : list TerminalShortcutConfig)
    (idx : nat) (s : TerminalShortcutConfig) :
  readFileConfig parseObserved ws = Returned (Some {| commands := CommandsArray F |}) →
  list_find (λ x, id x = id s) F = Some (idx, s) →
  ∃ resolved,
    loadShortcuts parseObserved ws = Returned resolved ∧
    list_find (λ x, id x = id s) resolved = Some (idx, withDefaults s).
Proof.
  intros Hfile Hfind. rewrite (loadShortcuts_file _ _ _ Hfile). eexists. split; [done|].
  apply list_find_normalizeShortcuts.
  destruct (default true _); [by apply list_find_mergeShortcuts | done].
Qed.

(** X22: saving to the workspace file and reloading.  With a folder
    open, a write the host accepts, and a file that is missing, fails to
    parse, or holds an object whose [commands] is an array of shortcut
    records ([current], each an object with its [id]) or is missing or
    falsy, [upsertWorkspaceShortcut] answers [true] without a notice and
    touches no other file; provided the written text parses
    back to what was written, the resolver then finds in the file the
    earlier list with the record saved into it, and looking up the
    record's id in the reloaded list gives the record with the defaults
    applied. *)
Theorem upsertWorkspaceShortcut_reload (s : TerminalShortcutConfig) (ws : Workspace)
    (root : string) (folders : list string) (current : list TerminalShortcutConfig) :
  JSON_parse_value
    (JSON_stringify (JsonRecord {| commands := CommandsArray (upsert s current) |})) =
    Some (JsonRecord {| commands := CommandsArray (upsert s current) |}) →
  workspaceFolders ws = Some (root :: folders) →
  readExisting JSON_parse_value ws (joinPath root ".vscode/terminal-shortcuts.json") =
    JsonRecord {| commands := CommandsArray current |} →
  answer (upsertWorkspaceShortcut JSON_parse_value JSON_stringify s false ws) = Some true ∧
  warningsShown (upsertWorkspaceShortcut JSON_parse_value JSON_stringify s false ws) = [] ∧
  errorsShown (upsertWorkspaceShortcut JSON_parse_value JSON_stringify s false ws) = [] ∧
  (∀ uri, uri ≠ joinPath root ".vscode/terminal-shortcuts.json" →
     filesAfter (upsertWorkspaceShortcut JSON_parse_value JSON_stringify s false ws) !! uri =
       files ws !! uri) ∧
  readFileConfig parseObserved
    (with_files (filesAfter (upsertWorkspaceShortcut JSON_parse_value JSON_stringify s false ws))
       ws) =
    Returned (Some {| commands := CommandsArray (upsert s current) |}) ∧
  ∃ resolved idx,
    loadShortcuts parseObserved
      (with_files (filesAfter (upsertWorkspaceShortcut JSON_parse_value JSON_stringify s false ws))
         ws) = Returned resolved ∧
    list_find (λ x, id x = id s) resolved = Some (idx, withDefaults s).
Proof.
  intros Hround Hfolders Hexisting.
  unfold upsertWorkspaceShortcut. rewrite Hfolders, primary_path, Hexisting. simpl.
  split; [done|]. split; [done|]. split; [done|]. split.
  { intros uri Huri. by rewrite lookup_insert_ne. }
  pose proof (readFileConfig_written ws root folders
                {| commands := CommandsArray (upsert s current) |} Hround Hfolders) as Hread.
  rewrite primary_path in Hread. split; [exact Hread|].
  destruct (upsert_find s current) as [idx Hfind].
  destruct (loadShortcuts_finds_file_record _ _ idx s Hread Hfind) as (resolved & Hload & Hfound).
  by exists resolved, idx.
Qed.

(** X23: when [upsertWorkspaceShortcut] saves nothing.  Without a folder
    it answers [false] and shows one warning.  Over a file that parses
    to [null], to another primitive, or to an object whose [commands] is
    a truthy value that is not an array, a [TypeError] escapes it: no
    answer, no notice, no write.  Over a file that parses to an array it
    answers [true] and writes the array back, without the record.  When
    the host refuses the write it answers [false] and shows one error
    notice.  In none of these cases, nor in any other, does it read or
    write a file other than [.vscode/terminal-shortcuts.json] of the
    first folder. *)
Theorem upsertWorkspaceShortcut_refusals (s : TerminalShortcutConfig) (rejects : bool)
    (ws : Workspace) :
  (workspaceFolders ws = None ∨ workspaceFolders ws = Some [] →
   answer (upsertWorkspaceShortcut JSON_parse_value JSON_stringify s rejects ws) = Some false ∧
   filesAfter (upsertWorkspaceShortcut JSON_parse_value JSON_stringify s rejects ws) = files ws ∧
   length (warningsShown (upsertWorkspaceShortcut JSON_parse_value JSON_stringify s rejects ws))
     = 1) ∧
  (∀ root folders text,
     workspaceFolders ws = Some (root :: folders) →
     files ws !! joinPath root ".vscode/terminal-shortcuts.json" = Some text →
     (JSON_parse_value text = Some JsonNull ∨ JSON_parse_value text = Some JsonScalar ∨
      JSON_parse_value text = Some (JsonRecord {| commands := CommandsNotArray |}) →
      upsertWorkspaceShortcut JSON_parse_value JSON_stringify s rejects ws =
        {| answer := None; filesAfter := files ws; warningsShown := []; errorsShown := [] |}) ∧
     (JSON_parse_value text = Some JsonArray → rejects = false →
      answer (upsertWorkspaceShortcut JSON_parse_value JSON_stringify s rejects ws) = Some true ∧
      filesAfter (upsertWorkspaceShortcut JSON_parse_value JSON_stringify s rejects ws)
        !! joinPath root ".vscode/terminal-shortcuts.json" = Some (JSON_stringify JsonArray))) ∧
  (rejects = true →
   answer (upsertWorkspaceShortcut JSON_parse_value JSON_stringify s rejects ws) ≠ Some true ∧
   filesAfter (upsertWorkspaceShortcut JSON_parse_value JSON_stringify s rejects ws) = files ws) ∧
  (∀ root folders uri,
     workspaceFolders ws = Some (root :: folders) →
     uri ≠ joinPath root ".vscode/terminal-shortcuts.json" →
     filesAfter (upsertWorkspaceShortcut JSON_parse_value JSON_stringify s rejects ws) !! uri =
       files ws !! uri ∧
     ∀ text,
       upsertWorkspaceShortcut JSON_parse_value JSON_stringify s rejects
         (with_files (<[uri := text]> (files ws)) ws) =
       {| answer := answer (upsertWorkspaceShortcut JSON_parse_value JSON_stringify s rejects ws);
          filesAfter :=
            <[uri := text]>
              (filesAfter (upsertWorkspaceShortcut JSON_parse_value JSON_stringify s rejects ws));
          warningsShown :=
            warningsShown (upsertWorkspaceShortcut JSON_parse_value JSON_stringify s rejects ws);
          errorsShown :=
            errorsShown (upsertWorkspaceShortcut JSON_parse_value JSON_stringify s rejects ws) |}).
Proof.
  split; [|split; [|split]].
  - unfold upsertWorkspaceShortcut. by intros [-> | ->].
  - intros root folders text Hfolders Hfile.
    unfold upsertWorkspaceShortcut, readExisting. rewrite Hfolders, primary_path, Hfile. split.
    + by intros [-> | [-> | ->]].
    + intros -> ->. cbn [upsertInto answer filesAfter]. split; [done|].
      by rewrite lookup_insert_eq.
  - intros ->. unfold upsertWorkspaceShortcut.
    destruct (workspaceFolders ws) as [[|root folders]|]; [done| |done].
    by destruct (upsertInto _ _).
  - intros root folders uri Hfolders Huri. split.
    + unfold upsertWorkspaceShortcut. rewrite Hfolders, primary_path.
      destruct (upsertInto s _) as [json|]; [|done].
      destruct rejects; [done|]. cbn [filesAfter]. by rewrite lookup_insert_ne.
    + intros text. unfold upsertWorkspaceShortcut.
      cbn [workspaceFolders with_files]. rewrite Hfolders, primary_path.
      assert (readExisting JSON_parse_value (with_files (<[uri := text]> (files ws)) ws)
                (joinPath root ".vscode/terminal-shortcuts.json") =
              readExisting JSON_parse_value ws
                (joinPath root ".vscode/terminal-shortcuts.json")) as ->.
      { unfold readExisting. cbn [files with_files]. by rewrite lookup_insert_ne. }
      destruct (upsertInto s _) as [json|]; [|done].
      destruct rejects; [done|]. cbn. f_equal. by apply insert_insert_ne.
Qed.

(** X24: [openOrCreateConfig] never changes a configuration file that is
    there: it only shows it.  Without a folder it shows a warning and no
    document.  With a folder and no file it writes the two sample
    records and shows the new file; provided the written text parses
    back to what was written, the resolver then finds the two samples in
    the file, and they head the reloaded list exactly as written, for
    every settings list and merge flag. *)
Theorem openOrCreateConfig_seed (rejects : bool) (ws : Workspace) :
  (workspaceFolders ws = None ∨ workspaceFolders ws = Some [] →
   ∃ out, openOrCreateConfig JSON_stringify rejects ws = Some out ∧
          filesThen out = files ws ∧ documentShown out = None ∧ length (warned out) = 1) ∧
  (∀ root folders text,
     workspaceFolders ws = Some (root :: folders) →
     files ws !! joinPath root ".vscode/terminal-shortcuts.json" = Some text →
     openOrCreateConfig JSON_stringify rejects ws =
       Some {| filesThen := files ws;
               documentShown := Some (joinPath root ".vscode/terminal-shortcuts.json");
               warned := [] |}) ∧
  (∀ root folders,
     workspaceFolders ws = Some (root :: folders) →
     files ws !! joinPath root ".vscode/terminal-shortcuts.json" = None →
     rejects = false →
     JSON_parse_value (JSON_stringify (JsonRecord sample)) = Some (JsonRecord sample) →
     ∃ out,
       openOrCreateConfig JSON_stringify rejects ws = Some out ∧
       documentShown out = Some (joinPath root ".vscode/terminal-shortcuts.json") ∧
       (∀ uri, uri ≠ joinPath root ".vscode/terminal-shortcuts.json" →
               filesThen out !! uri = files ws !! uri) ∧
       readFileConfig parseObserved (with_files (filesThen out) ws) = Returned (Some sample) ∧
       ∃ resolved,
         loadShortcuts parseObserved (with_files (filesThen out) ws) = Returned resolved ∧
         take 2 resolved =
           [sampleShortcut "build" "Build" "npm run build" "tools";
            sampleShortcut "test" "Test" "npm test" "beaker"]).
Proof.
  split; [|split].
  - unfold openOrCreateConfig. intros [-> | ->]; by eexists.
  - intros root folders text Hfolders Hfile.
    unfold openOrCreateConfig. by rewrite Hfolders, primary_path, Hfile.
  - intros root folders Hfolders Hfile -> Hround.
    unfold openOrCreateConfig. rewrite Hfolders, primary_path, Hfile.
    eexists. split; [done|]. cbn [documentShown filesThen]. split; [done|]. split.
    { intros uri Huri. by rewrite lookup_insert_ne. }
    pose proof (readFileConfig_written ws root folders sample Hround Hfolders) as Hread.
    rewrite primary_path in Hread. split; [exact Hread|].
    rewrite (loadShortcuts_file _ _ _ Hread). eexists. split; [done|].
    destruct (default true _); [|done].
    by rewrite mergeShortcuts_extras, normalizeShortcuts_app.
Qed.
End ConfigurationFile_properties.

(** ** Concrete instances of the further properties *)

Lemma readFileConfig_primary_first_witness :
  (∀ text config,
     files (sample_workspace "a b" b_c None)
       !! joinPath "/project" ".vscode/terminal-shortcuts.json" = Some text →
     sample_parse text = Some (JsonObject config) →
     readFileConfig sample_parse (sample_workspace "a b" b_c None) = Returned (Some config)) ∧
  (unusable sample_parse (sample_workspace "a b" b_c None)
     (joinPath "/project" ".vscode/terminal-shortcuts.json") ∨
   (∃ text, files (sample_workspace "a b" b_c None)
              !! joinPath "/project" ".vscode/terminal-shortcuts.json" = Some text ∧
            sample_parse text = Some JsonPrimitive) →
   readFileConfig sample_parse (sample_workspace "a b" b_c None) =
     readCandidate sample_parse (sample_workspace "a b" b_c None)
       (joinPath "/project" "terminal-shortcuts.json")).
Proof.
  apply (readFileConfig_primary_first sample_parse (sample_workspace "a b" b_c None)
           "/project" []).
  reflexivity.
Defined.

Lemma loadShortcuts_commands_not_array_witness :
  loadShortcuts shape_parse (sample_workspace "object" b_c (Some false)) =
    Returned (normalizeShortcuts b_c).
Proof.
  apply (loadShortcuts_commands_not_array shape_parse
           (sample_workspace "object" b_c (Some false)) {| commands := CommandsMissing |}).
  - vm_compute. reflexivity.
  - left. reflexivity.
Defined.

Lemma runShortcut_command_first_match_witness :
  terminalShortcuts_runShortcut sample_parse (Some "build") build_loaded =
    {| window := (runShortcut build build_open).2;
       shortcuts := [build];
       workspace := sample_workspace "a b" [] None |} ∧
  errorMessages
    (window (terminalShortcuts_runShortcut sample_parse (Some "build") build_loaded)) = [].
Proof.
  apply (runShortcut_command_first_match sample_parse "build" build_loaded 0 build).
  - discriminate.
  - reflexivity.
  - reflexivity.
  - intros j x _ Hj. lia.
Defined.

Lemma upsert_distinct_ids_witness :
  NoDup (id <$> upsert (shortcut "b" "new") a_b) ∧
  ∀ i, i ∈ id <$> upsert (shortcut "b" "new") a_b ↔
       i = id (shortcut "b" "new") ∨ i ∈ id <$> a_b.
Proof.
  apply (upsert_distinct_ids (shortcut "b" "new") a_b).
  simpl. apply NoDup_cons. split; [|apply NoDup_singleton].
  intros Hin. apply list_elem_of_singleton in Hin. discriminate.
Defined.

Lemma duplicateGlobal_taken_id_witness :
  (∃ fresh,
     duplicateTarget (shortcut "b" "file") (sample_workspace "a b" b_c None) (Some copy) =
       Some (with_id fresh (shortcut "b" "file")) ∧
     (fresh ∉ id <$> b_c) ∧
     (fresh = "b" +:+ "-global" ∨
      ∃ k, 1 ≤ k ∧ fresh = ("b" +:+ "-global") +:+ "-" +:+ pretty k) ∧
     user_commands
       (duplicateGlobal (shortcut "b" "file") (sample_workspace "a b" b_c None) (Some copy)
          accepting build_open).1.1 =
       Some (b_c ++ [with_id fresh (shortcut "b" "file")])) ∧
  (∃ written,
     user_commands
       (duplicateGlobal (shortcut "b" "file") (sample_workspace "a b" b_c None)
          (Some overwrite) accepting build_open).1.1 = Some written ∧
     length written = length b_c ∧
     shortcut "b" "file" ∈ written) ∧
  duplicateGlobal (shortcut "b" "file") (sample_workspace "a b" b_c None) None
    accepting build_open = (accepting, build_open, []).
Proof.
  apply (duplicateGlobal_taken_id (shortcut "b" "file") (sample_workspace "a b" b_c None)
           accepting build_open).
  - simpl. apply list_elem_of_here.
  - reflexivity.
Defined.

Lemma getChildren_click_witness :
  length (getChildren build_loaded) = length (shortcuts build_loaded) ∧
  shortcuts build_loaded !! 0 = Some build ∧
  (id build = "" →
   executeCommand sample_parse
     (item_command (newShortcutTreeItem build (ThemeIcon "terminal"))) build_loaded =
     Some build_loaded) ∧
  (id build ≠ "" →
   ∃ j s,
     list_find (λ x, id x = id build) (shortcuts build_loaded) = Some (j, s) ∧
     j ≤ 0 ∧
     executeCommand sample_parse
       (item_command (newShortcutTreeItem build (ThemeIcon "terminal"))) build_loaded =
       Some {| window := (runShortcut s (window build_loaded)).2;
               shortcuts := shortcuts build_loaded;
               workspace := workspace build_loaded |} ∧
     (NoDup (id <$> shortcuts build_loaded) → j = 0 ∧ s = build)).
Proof.
  apply (getChildren_click sample_parse build_loaded 0
           (newShortcutTreeItem build (ThemeIcon "terminal"))).
  reflexivity.
Defined.

Lemma rebuildStatusBar_tracks_items_witness :
  (∀ handle item, items empty_bar !! handle = Some item →
     ∃ item', items (rebuildStatusBar (λ t, t) show_all [build] empty_bar) !! handle
                = Some item' ∧ visible item' = false) ∧
  drop (length (items empty_bar)) (items (rebuildStatusBar (λ t, t) show_all [build] empty_bar)) =
    statusBarItemFor (λ t, t) show_all <$> filter (inStatusBar show_all) [build] ∧
  (∀ j s, filter (inStatusBar show_all) [build] !! j = Some s →
     statusBarItems (rebuildStatusBar (λ t, t) show_all [build] empty_bar) !! id s =
       Some (length (items empty_bar) + j)) ∧
  allVisibleTracked (rebuildStatusBar (λ t, t) show_all [build] empty_bar).
Proof.
  apply (rebuildStatusBar_tracks_items (λ t, t) show_all [build] empty_bar).
  - intros handle item Hitem. discriminate Hitem.
  - vm_compute. apply NoDup_singleton.
Defined.

Lemma upsertWorkspaceShortcut_reload_witness :
  answer (upsertWorkspaceShortcut saved_parse saved_stringify (shortcut "a" "saved") false
            (sample_workspace "not json" b_c None)) = Some true ∧
  ∃ resolved idx,
    loadShortcuts (parseObserved saved_parse)
      (with_files
         (filesAfter (upsertWorkspaceShortcut saved_parse saved_stringify
                        (shortcut "a" "saved") false (sample_workspace "not json" b_c None)))
         (sample_workspace "not json" b_c None)) = Returned resolved ∧
    list_find (λ x, id x = "a") resolved = Some (idx, withDefaults (shortcut "a" "saved")).
Proof.
  destruct (upsertWorkspaceShortcut_reload saved_parse saved_stringify (shortcut "a" "saved")
              (sample_workspace "not json" b_c None) "/project" [] [])
    as (Hanswer & _ & _ & _ & _ & Hreload).
  - reflexivity.
  - reflexivity.
  - vm_compute. reflexivity.
  - split; [exact Hanswer | exact Hreload].
Defined.

Lemma loadShortcuts_fully_defaulted_witness :
  Forall (λ s, is_Some (reuse s) ∧ is_Some (focus s) ∧
               is_Some (codicon s) ∧ is_Some (location s))
    (normalizeShortcuts (mergeShortcuts a_b b_c)) ∧
  normalizeShortcuts (normalizeShortcuts (mergeShortcuts a_b b_c)) =
    normalizeShortcuts (mergeShortcuts a_b b_c).
Proof.
  apply (loadShortcuts_fully_defaulted sample_parse (sample_workspace "a b" b_c None)).
  vm_compute. reflexivity.
Defined.
